(** * maskforge: the coordinate mapping and compositing core

    A shallow embedding of the rendering functions of
    [standalone/bitmap2lcdmask.py], [standalone/gds2lcdmask.py],
    [standalone/gerber2lcdmask.py] and of their twins in
    [maskforge_toolkit.py], together with the properties the specification
    states about them.

    Conventions of the embedding.
    - Python [int] is [Z].  Python [float] is modelled by exact rationals
      [Q]: products, quotients and differences are the mathematical ones.
      The inputs at which a statement of the specification is refuted are
      chosen so that binary64 arithmetic is exact on them as well.
    - An exception is a value of [exn]; a function that may raise returns
      [result].
    - A Pillow image of mode ["L"] is a record of its size and its rows of
      intensities.  Pillow's resampler and its shape rasterisers are
      collaborators of the program and enter as the interface [Pillow];
      gdspy enters as the interface [Gdspy]. *)

From Stdlib Require Import ZArith QArith Qround Lia.
From stdpp Require Import base tactics option list gmap strings pretty sorting.

Open Scope Z_scope.

(** ** Python numerics *)

Inductive exn : Type :=
  | ZeroDivisionError
  | ValueError (msg : string)
  | OSError (msg : string).

Inductive result (A : Type) : Type :=
  | Ok (a : A)
  | Raise (e : exn).
Arguments Ok {A} a.
Arguments Raise {A} e.

Global Instance result_bind : MBind result := fun A B k r =>
  match r with
  | Ok a => k a
  | Raise e => Raise e
  end.

Global Instance result_ret : MRet result := fun A a => Ok a.

(** [int(x)] on a float: truncation toward zero. *)
Definition py_int (x : Q) : Z :=
  if Qle_bool 0 x then Qfloor x else Qceiling x.

(** [math.ceil(x)]. *)
Definition py_ceil (x : Q) : Z := Qceiling x.

(** [round(x)] on a float: nearest integer, ties to the even one. *)
Definition py_round (x : Q) : Z :=
  let f := Qfloor x in
  match Qcompare (x - inject_Z f) (1 # 2) with
  | Lt => f
  | Gt => f + 1
  | Eq => if Z.even f then f else f + 1
  end.

(** [a / b]: true division, raising on a zero divisor. *)
Definition py_div (a b : Q) : result Q :=
  if Qeq_bool b 0 then Raise ZeroDivisionError else Ok (a / b)%Q.

(** ** Pillow images of mode "L" *)

Record Image : Type := mkImage {
  width : Z;
  height : Z;
  rows : list (list Z)
}.

(** The shape invariant of an image, and the 8-bit range of its pixels. *)
Definition well_formed (im : Image) : Prop :=
  0 <= width im /\ 0 <= height im /\
  length (rows im) = Z.to_nat (height im) /\
  Forall (fun r => length r = Z.to_nat (width im)) (rows im).

Definition eight_bit (im : Image) : Prop :=
  Forall (Forall (fun v => 0 <= v <= 255)) (rows im).

(** [Image.new("L", (w, h), fill)]. *)
Definition Image_new (w h : Z) (fill : Z) : result Image :=
  if (w <? 0) || (h <? 0)
  then Raise (ValueError "Width and height must be >= 0")
  else Ok (mkImage w h (replicate (Z.to_nat h) (replicate (Z.to_nat w) fill))).

(** The intensity at column [x], row [y]; [None] outside the image. *)
Definition getpixel (im : Image) (x y : Z) : option Z :=
  if (0 <=? x) && (0 <=? y)
  then r ← rows im !! Z.to_nat y; r !! Z.to_nat x
  else None.

(** [im.point(f)]. *)
Definition point (f : Z -> Z) (im : Image) : Image :=
  mkImage (width im) (height im) ((fun r : list Z => f <$> r) <$> rows im).

(** [ImageOps.invert(im)]. *)
Definition ImageOps_invert (im : Image) : Image :=
  point (fun v => 255 - v) im.

(** [ImageOps.mirror(im)]: left-right flip. *)
Definition ImageOps_mirror (im : Image) : Image :=
  mkImage (width im) (height im) (reverse <$> rows im).

(** [im.convert("L")]: the model's images are single-channel already. *)
Definition convert_L (im : Image) : Image := im.

(** [im.crop((left, upper, right, lower))]: the region, zero outside the
    source. *)
Definition crop (im : Image) (box : Z * Z * Z * Z) : Image :=
  let '(x0, y0, x1, y1) := box in
  mkImage (x1 - x0) (y1 - y0)
    ((fun y => (fun x => default 0 (getpixel im x y)) <$> seqZ x0 (x1 - x0))
       <$> seqZ y0 (y1 - y0)).

(** Pillow's [BLEND(mask, in1, in2)] of [Paste.c]: at mask 0 and 255 it
    returns [in1] and [in2] for 8-bit operands, in between the rounded
    mix. *)
Definition blend (a d s : Z) : Z :=
  if a =? 0 then d
  else if a =? 255 then s
  else let t := d * (255 - a) + s * a + 128 in
       Z.shiftr (Z.shiftr t 8 + t) 8.

Definition paste_pixel (im : Image) (mask : option Image) (u v : Z) (d : Z) : Z :=
  match getpixel im u v with
  | None => d
  | Some s =>
      match mask with
      | None => s
      | Some m =>
          match getpixel m u v with
          | Some a => blend a d s
          | None => d
          end
      end
  end.

(** [base.paste(im, (bx, by), mask)]: the part of [im] that falls on [base]
    replaces (or, under a mask, blends into) the pixels there; everything
    else is clipped. *)
Definition paste (base im : Image) (box : Z * Z) (mask : option Image) : Image :=
  mkImage (width base) (height base)
    (imap (fun Y row =>
       imap (fun X d => paste_pixel im mask (Z.of_nat X - box.1) (Z.of_nat Y - box.2) d) row)
       (rows base)).

(** What the program uses of Pillow without this file defining it: the
    Lanczos resampler behind [im.resize(size, resample=LANCZOS)], the pixel
    sets that [ImageDraw.ellipse] and [ImageDraw.polygon] fill, and the
    decoding of an image file. *)
Class Pillow : Type := {
  Image_resize : Image -> Z * Z -> result Image;
  in_ellipse : Z * Z * Z * Z -> Z -> Z -> bool;
  in_polygon : list (Q * Q) -> Z -> Z -> bool;
  Image_open : string -> result Image
}.

(** [ImageDraw.Draw(im).<shape>(..., fill=fill)] for a shape given by its
    pixel set. *)
Definition draw (inside : Z -> Z -> bool) (fill : Z) (im : Image) : Image :=
  mkImage (width im) (height im)
    (imap (fun Y row =>
       imap (fun X d => if inside (Z.of_nat X) (Z.of_nat Y) then fill else d) row)
       (rows im)).

(** ** standalone/bitmap2lcdmask.py
    ([_bmp_render_to_photomask] and [_bmp_place_in_circle] of
    maskforge_toolkit.py have the same bodies; they are in [ToolkitTabs]
    below.) *)

Module Bitmap2lcdmask.
Section Render.
Context `{Pillow}.

Definition place_in_circle (base_img content_img : Image) (center : Z * Z)
    (radius_px_x radius_px_y : Z) (threshold : option Z) (invert : bool)
    : result Image :=
  let content_img := convert_L content_img in
  let content_img :=
    match threshold with
    | Some thr => point (fun x => if x >=? thr then 255 else 0) content_img
    | None => content_img
    end in
  let content_img :=
    if invert then ImageOps_invert content_img else content_img in
  let min_side := Z.min (width content_img) (height content_img) in
  let left := (width content_img - min_side) `div` 2 in
  let top := (height content_img - min_side) `div` 2 in
  let content_cropped :=
    crop content_img (left, top, left + min_side, top + min_side) in
  scaled ← Image_resize content_cropped (2 * radius_px_x, 2 * radius_px_y);
  mask ← Image_new (2 * radius_px_x) (2 * radius_px_y) 0;
  let mask := draw (in_ellipse (0, 0, 2 * radius_px_x, 2 * radius_px_y)) 255 mask in
  let paste_position := (center.1 - radius_px_x, center.2 - radius_px_y) in
  Ok (paste base_img scaled paste_position (Some mask)).

(** The three centre coordinates, as [render_bitmap_to_photomask] assigns
    them to its locals of the same names. *)
Definition center_y (H_px : Z) : Z := H_px `div` 2.

Definition left_center_x (circle_offset_mm px_per_mm_x : Q) : Z :=
  py_int (circle_offset_mm * px_per_mm_x).

Definition right_center_x (screen_width_mm circle_offset_mm px_per_mm_x : Q) : Z :=
  py_int ((screen_width_mm - circle_offset_mm) * px_per_mm_x).

Definition render_bitmap_to_photomask (input_path : string) (threshold : Z)
    (W_px H_px : Z) (screen_width_mm screen_height_mm : Q)
    (circle_diam_mm circle_offset_mm : Q) : result Image :=
  px_per_mm_x ← py_div (inject_Z W_px) screen_width_mm;
  px_per_mm_y ← py_div (inject_Z H_px) screen_height_mm;
  let radius_mm := (circle_diam_mm / 2)%Q in
  let radius_px_x := py_int (radius_mm * px_per_mm_x) in
  let radius_px_y := py_int (radius_mm * px_per_mm_y) in
  let center_y := center_y H_px in
  let left_center_x := left_center_x circle_offset_mm px_per_mm_x in
  let right_center_x :=
    right_center_x screen_width_mm circle_offset_mm px_per_mm_x in
  base ← Image_new W_px H_px 0;
  img ← Image_open input_path;
  base ← place_in_circle base img (left_center_x, center_y)
           radius_px_x radius_px_y (Some threshold) false;
  base ← place_in_circle base img (right_center_x, center_y)
           radius_px_x radius_px_y (Some threshold) true;
  let base := ImageOps_mirror base in
  Ok base.

(** The same computation with the final mirror step left out: the canvas
    the mirror property compares against. *)
Definition render_bitmap_unmirrored (input_path : string) (threshold : Z)
    (W_px H_px : Z) (screen_width_mm screen_height_mm : Q)
    (circle_diam_mm circle_offset_mm : Q) : result Image :=
  px_per_mm_x ← py_div (inject_Z W_px) screen_width_mm;
  px_per_mm_y ← py_div (inject_Z H_px) screen_height_mm;
  let radius_mm := (circle_diam_mm / 2)%Q in
  let radius_px_x := py_int (radius_mm * px_per_mm_x) in
  let radius_px_y := py_int (radius_mm * px_per_mm_y) in
  let center_y := center_y H_px in
  let left_center_x := left_center_x circle_offset_mm px_per_mm_x in
  let right_center_x :=
    right_center_x screen_width_mm circle_offset_mm px_per_mm_x in
  base ← Image_new W_px H_px 0;
  img ← Image_open input_path;
  base ← place_in_circle base img (left_center_x, center_y)
           radius_px_x radius_px_y (Some threshold) false;
  base ← place_in_circle base img (right_center_x, center_y)
           radius_px_x radius_px_y (Some threshold) true;
  Ok base.

End Render.
End Bitmap2lcdmask.

(** ** standalone/gds2lcdmask.py
    ([_gds_render_to_photomask] and [_gds_paste_circle] of
    maskforge_toolkit.py have the same bodies but for the text of one
    exception; they are in [ToolkitTabs] below.) *)

(** What the program uses of gdspy.  [copy_registers] says whether
    [cell.copy(name=...)] enters the new cell into [lib.cells], which the
    program's own clean-up and the specification take for granted. *)
Class Gdspy : Type := {
  Cell : Type;
  Cell_copy : Cell -> string -> Cell;
  Cell_flatten : Cell -> Cell;
  Cell_get_polygons : Cell -> gmap (Z * Z) (list (list (Q * Q)));
  Cell_get_bounding_box : Cell -> option ((Q * Q) * (Q * Q));
  copy_registers : bool
}.

(** A computation on a mutable store that may raise: the store survives the
    exception. *)
Definition stateful (S A : Type) : Type := S -> S * result A.

Global Instance stateful_bind {S} : MBind (stateful S) := fun A B k m s =>
  match m s with
  | (s', Ok a) => k a s'
  | (s', Raise e) => (s', Raise e)
  end.

Global Instance stateful_ret {S} : MRet (stateful S) := fun A a s => (s, Ok a).

Definition raise {S A} (e : exn) : stateful S A := fun s => (s, Raise e).
Definition lift {S A} (r : result A) : stateful S A := fun s => (s, r).
Definition modify {S} (f : S -> S) : stateful S unit := fun s => (f s, Ok tt).
Definition get {S} : stateful S S := fun s => (s, Ok s).

Module Gds2lcdmask.
Section Render.
Context `{Pillow} `{Gdspy}.

Definition paste_circle (base img : Image) (rx ry : Z) (px_mm_x px_mm_y : Q)
    (pos : string) (offset_mm : Q) (invert : bool) : result Image :=
  let img := if invert then ImageOps_invert img else img in
  let cy := height base `div` 2 in
  cx ← (if decide (pos = "left")
        then Ok (py_int (offset_mm * px_mm_x))
        else disp_mm_w ← py_div (inject_Z (width base)) px_mm_x;
             Ok (py_int ((disp_mm_w - offset_mm) * px_mm_x)));
  mask ← Image_new (width img) (height img) 0;
  let mask := draw (in_ellipse (0, 0, width img, height img)) 255 mask in
  Ok (paste base img (cx - rx, cy - ry) (Some mask)).

(** [if temp_name in lib.cells: del lib.cells[temp_name]]. *)
Definition discard (temp_name : string) (cells : gmap string Cell)
    : gmap string Cell :=
  if decide (is_Some (cells !! temp_name)) then delete temp_name cells else cells.

(** The polygon loop: every vertex goes from micrometres to raster pixels,
    and each polygon is filled with 255. *)
Definition draw_polygons (gds_img : Image) (polys : list (list (Q * Q)))
    (cx_um cy_um scale_um_to_px_x scale_um_to_px_y : Q)
    (radius_px_x radius_px_y : Z) : Image :=
  foldl (fun im poly =>
           let pts := (fun '(x, y) =>
                         ((x - cx_um) * scale_um_to_px_x + inject_Z radius_px_x,
                          (cy_um - y) * scale_um_to_px_y + inject_Z radius_px_y)%Q)
                      <$> poly in
           draw (in_polygon pts) 255 im)
        gds_img polys.

(** [lib] is the library that [gdspy.GdsLibrary(infile=gds_path)] loaded and
    [uuid4_hex] the value of [uuid.uuid4().hex]; the store is [lib.cells]. *)
Definition render_gds_to_photomask (uuid4_hex : string)
    (cell_name : string) (layer : Z) (W_px H_px : Z)
    (screen_width_mm screen_height_mm : Q)
    (circle_diam_mm circle_offset_mm : Q)
    : stateful (gmap string Cell) Image :=
  cells ← get;
  match cells !! cell_name with
  | None => raise (ValueError ("Cell '" +:+ cell_name +:+ "' not found in GDS."))
  | Some original_cell =>
    let temp_name := "__temp_flat__" +:+ uuid4_hex in
    let flat_cell := Cell_flatten (Cell_copy original_cell temp_name) in
    _ ← modify (fun cells =>
           if copy_registers then <[temp_name := flat_cell]> cells else cells);
    let polys := default [] (Cell_get_polygons flat_cell !! (layer, 0)) in
    if decide (polys = []) then
      _ ← modify (discard temp_name);
      raise (ValueError ("No geometry on layer " +:+ pretty layer +:+ "."))
    else
      px_per_mm_x ← lift (py_div (inject_Z W_px) screen_width_mm);
      px_per_mm_y ← lift (py_div (inject_Z H_px) screen_height_mm);
      let radius_mm := (circle_diam_mm / 2)%Q in
      let radius_px_x := py_int (radius_mm * px_per_mm_x) in
      let radius_px_y := py_int (radius_mm * px_per_mm_y) in
      let scale_um_to_px_x := (px_per_mm_x / 1000)%Q in
      let scale_um_to_px_y := (px_per_mm_y / 1000)%Q in
      match Cell_get_bounding_box flat_cell with
      | None =>
        _ ← modify (discard temp_name);
        raise (ValueError "Empty cell; no bounding box found.")
      | Some bbox =>
        let cx_um := ((bbox.1.1 + bbox.2.1) / 2)%Q in
        let cy_um := ((bbox.1.2 + bbox.2.2) / 2)%Q in
        gds_img ← lift (Image_new (2 * radius_px_x) (2 * radius_px_y) 0);
        let gds_img :=
          draw_polygons gds_img polys cx_um cy_um
            scale_um_to_px_x scale_um_to_px_y radius_px_x radius_px_y in
        base ← lift (Image_new W_px H_px 0);
        base ← lift (paste_circle base gds_img radius_px_x radius_px_y
                       px_per_mm_x px_per_mm_y "left" circle_offset_mm false);
        base ← lift (paste_circle base gds_img radius_px_x radius_px_y
                       px_per_mm_x px_per_mm_y "right" circle_offset_mm true);
        let base := ImageOps_mirror base in
        _ ← modify (discard temp_name);
        mret base
      end
  end.

(** The same computation with the final mirror step left out. *)
Definition render_gds_unmirrored (uuid4_hex : string)
    (cell_name : string) (layer : Z) (W_px H_px : Z)
    (screen_width_mm screen_height_mm : Q)
    (circle_diam_mm circle_offset_mm : Q)
    : stateful (gmap string Cell) Image :=
  cells ← get;
  match cells !! cell_name with
  | None => raise (ValueError ("Cell '" +:+ cell_name +:+ "' not found in GDS."))
  | Some original_cell =>
    let temp_name := "__temp_flat__" +:+ uuid4_hex in
    let flat_cell := Cell_flatten (Cell_copy original_cell temp_name) in
    _ ← modify (fun cells =>
           if copy_registers then <[temp_name := flat_cell]> cells else cells);
    let polys := default [] (Cell_get_polygons flat_cell !! (layer, 0)) in
    if decide (polys = []) then
      _ ← modify (discard temp_name);
      raise (ValueError ("No geometry on layer " +:+ pretty layer +:+ "."))
    else
      px_per_mm_x ← lift (py_div (inject_Z W_px) screen_width_mm);
      px_per_mm_y ← lift (py_div (inject_Z H_px) screen_height_mm);
      let radius_mm := (circle_diam_mm / 2)%Q in
      let radius_px_x := py_int (radius_mm * px_per_mm_x) in
      let radius_px_y := py_int (radius_mm * px_per_mm_y) in
      let scale_um_to_px_x := (px_per_mm_x / 1000)%Q in
      let scale_um_to_px_y := (px_per_mm_y / 1000)%Q in
      match Cell_get_bounding_box flat_cell with
      | None =>
        _ ← modify (discard temp_name);
        raise (ValueError "Empty cell; no bounding box found.")
      | Some bbox =>
        let cx_um := ((bbox.1.1 + bbox.2.1) / 2)%Q in
        let cy_um := ((bbox.1.2 + bbox.2.2) / 2)%Q in
        gds_img ← lift (Image_new (2 * radius_px_x) (2 * radius_px_y) 0);
        let gds_img :=
          draw_polygons gds_img polys cx_um cy_um
            scale_um_to_px_x scale_um_to_px_y radius_px_x radius_px_y in
        base ← lift (Image_new W_px H_px 0);
        base ← lift (paste_circle base gds_img radius_px_x radius_px_y
                       px_per_mm_x px_per_mm_y "left" circle_offset_mm false);
        base ← lift (paste_circle base gds_img radius_px_x radius_px_y
                       px_per_mm_x px_per_mm_y "right" circle_offset_mm true);
        _ ← modify (discard temp_name);
        mret base
      end
  end.

End Render.
End Gds2lcdmask.

(** ** standalone/gerber2lcdmask.py
    (gerber2anycubic_png.py has the same [recompute_scalars] and
    [build_canvas].) *)

Module Gerber2lcdmask.

(** The module-level variables: the six settings and the four derived
    scalars that [recompute_scalars] assigns. *)
Record Globals : Type := mkGlobals {
  DISPLAY_PIX_W : Z;
  DISPLAY_PIX_H : Z;
  DISPLAY_W_MM : Q;
  DISPLAY_H_MM : Q;
  PCB_W_MM : Q;
  PCB_H_MM : Q;
  PX_PER_MM_X : Q;
  PX_PER_MM_Y : Q;
  DRAW_W : Z;
  DRAW_H : Z
}.

Definition recompute_scalars (g : Globals) : result Globals :=
  px_per_mm_x ← py_div (inject_Z (DISPLAY_PIX_W g)) (DISPLAY_W_MM g);
  px_per_mm_y ← py_div (inject_Z (DISPLAY_PIX_H g)) (DISPLAY_H_MM g);
  let draw_w := py_ceil (PCB_W_MM g * px_per_mm_x) in
  let draw_h := py_ceil (PCB_H_MM g * px_per_mm_y) in
  Ok (mkGlobals (DISPLAY_PIX_W g) (DISPLAY_PIX_H g) (DISPLAY_W_MM g)
        (DISPLAY_H_MM g) (PCB_W_MM g) (PCB_H_MM g)
        px_per_mm_x px_per_mm_y draw_w draw_h).

Section Render.
Context `{Pillow}.

(** [img] and the four numbers are what [render_bw_with_origin] returned:
    the raster of the Gerber engine and the layer's bounding box. *)
Definition build_canvas (g : Globals) (img : Image) (invert mirror : bool)
    (min_x_mm max_y_mm w h : Q) : result Image :=
  img ← Image_resize img (py_int (PX_PER_MM_X g * w), py_int (PX_PER_MM_Y g * h));
  canvas_pcb ← Image_new (DRAW_W g) (DRAW_H g) 255;
  let offset_x := py_round (min_x_mm * PX_PER_MM_X g) in
  let offset_y := py_round (- max_y_mm * PX_PER_MM_Y g) in
  let canvas_pcb := paste canvas_pcb img (offset_x, offset_y) None in
  let canvas_pcb := if mirror then ImageOps_mirror canvas_pcb else canvas_pcb in
  let canvas_pcb := if invert then ImageOps_invert canvas_pcb else canvas_pcb in
  canvas ← Image_new (DISPLAY_PIX_W g) (DISPLAY_PIX_H g) 0;
  let x := (DISPLAY_PIX_W g - DRAW_W g) `div` 2 in
  let y := (DISPLAY_PIX_H g - DRAW_H g) `div` 2 in
  Ok (paste canvas canvas_pcb (x, y) None).

End Render.
End Gerber2lcdmask.

(** ** maskforge_toolkit.py, Gerber tab *)

Module Toolkit.
Section Render.
Context `{Pillow}.

Definition _gerber_build_canvas (img : Image) (invert mirror : bool)
    (min_x_mm max_y_mm w_mm h_mm : Q) (disp_pix_w disp_pix_h : Z)
    (px_per_mm_x px_per_mm_y : Q) (pcb_w_mm pcb_h_mm : Q) : result Image :=
  img ← Image_resize img (py_int (px_per_mm_x * w_mm), py_int (px_per_mm_y * h_mm));
  let draw_w := py_ceil (pcb_w_mm * px_per_mm_x) in
  let draw_h := py_ceil (pcb_h_mm * px_per_mm_y) in
  canvas_pcb ← Image_new draw_w draw_h 255;
  let offset_x := py_round (min_x_mm * px_per_mm_x) in
  let offset_y := py_round (- max_y_mm * px_per_mm_y) in
  let canvas_pcb := paste canvas_pcb img (offset_x, offset_y) None in
  let canvas_pcb := if mirror then ImageOps_mirror canvas_pcb else canvas_pcb in
  let canvas_pcb := if invert then ImageOps_invert canvas_pcb else canvas_pcb in
  canvas ← Image_new disp_pix_w disp_pix_h 0;
  let x := (disp_pix_w - draw_w) `div` 2 in
  let y := (disp_pix_h - draw_h) `div` 2 in
  Ok (paste canvas canvas_pcb (x, y) None).

End Render.
End Toolkit.

(** ** The transform contract in the specification's words *)

Module Spec.

(** "toPixelsX(mm) = round(mm * px_per_mm_x)", and likewise for Y. *)
Definition toPixels (px_per_mm mm : Q) : Z := py_round (mm * px_per_mm).

End Spec.

(** ** Executable instances of the two interfaces

    They stand in for Pillow and gdspy wherever the model is run on a
    concrete input: nearest-neighbour sampling for the resampler, the
    inscribed-ellipse inequality at pixel centres, the bounding box of the
    vertices for a polygon, and cells that are flat lists of tagged
    polygons. *)

Definition nearest_resize (im : Image) (size : Z * Z) : result Image :=
  let '(w, h) := size in
  if (w <? 1) || (h <? 1)
  then Raise (ValueError "height and width must be > 0")
  else Ok (mkImage w h
         ((fun y =>
             (fun x => default 0 (getpixel im (x * width im `div` w)
                                              (y * height im `div` h)))
               <$> seqZ 0 w)
            <$> seqZ 0 h)).

Definition centre_in_ellipse (box : Z * Z * Z * Z) (x y : Z) : bool :=
  let '(x0, y0, x1, y1) := box in
  let w := x1 - x0 in
  let h := y1 - y0 in
  (2 * (x - x0) + 1 - w) ^ 2 * h ^ 2 + (2 * (y - y0) + 1 - h) ^ 2 * w ^ 2
    <=? w ^ 2 * h ^ 2.

Definition centre_in_bounds (pts : list (Q * Q)) (x y : Z) : bool :=
  let cx := (inject_Z x + (1 # 2))%Q in
  let cy := (inject_Z y + (1 # 2))%Q in
  existsb (fun p => Qle_bool p.1 cx) pts && existsb (fun p => Qle_bool cx p.1) pts
  && existsb (fun p => Qle_bool p.2 cy) pts && existsb (fun p => Qle_bool cy p.2) pts.

(** One file: a 2x2 image, dark in its top-left corner only. *)
Definition sample_files (path : string) : result Image :=
  if decide (path = "in.png")
  then Ok (mkImage 2 2 [[10; 200]; [200; 200]])
  else Raise (OSError "No such file or directory").

Definition sample_pillow : Pillow :=
  {| Image_resize := nearest_resize;
     in_ellipse := centre_in_ellipse;
     in_polygon := centre_in_bounds;
     Image_open := sample_files |}.

Definition flat_polygons (c : list (Z * Z * list (Q * Q)))
    : gmap (Z * Z) (list (list (Q * Q))) :=
  foldr (fun '(l, d, p) m => <[(l, d) := p :: default [] (m !! (l, d))]> m) ∅ c.

Definition q_min (a b : Q) : Q := if Qle_bool a b then a else b.
Definition q_max (a b : Q) : Q := if Qle_bool a b then b else a.

Definition flat_bounding_box (c : list (Z * Z * list (Q * Q)))
    : option ((Q * Q) * (Q * Q)) :=
  match concat (snd <$> c) with
  | [] => None
  | p :: ps =>
      Some (foldr (fun q b => (q_min q.1 b.1.1, q_min q.2 b.1.2,
                               (q_max q.1 b.2.1, q_max q.2 b.2.2)))
                  (p, p) ps)
  end.

Definition flat_gdspy : Gdspy :=
  {| Cell := list (Z * Z * list (Q * Q));
     Cell_copy := fun c _ => c;
     Cell_flatten := fun c => c;
     Cell_get_polygons := flat_polygons;
     Cell_get_bounding_box := flat_bounding_box;
     copy_registers := true |}.

(** A library with one cell: a square of side 2000 um on layer 1. *)
Definition sample_library : gmap string (list (Z * Z * list (Q * Q))) :=
  {[ "TOP" := [(1, 0, [(0, 0); (2000, 0); (2000, 2000); (0, 2000)]%Q)] ]}.

(** A display of 8 x 6 pixels on 8 x 6 mm with a PCB of 4 x 2 mm, before
    [recompute_scalars] has run, and a 2 x 2 checkerboard as layer raster. *)
Definition sample_settings : Gerber2lcdmask.Globals :=
  Gerber2lcdmask.mkGlobals 8 6 8 6 4 2 0 0 0 0.

Definition sample_layer : Image := mkImage 2 2 [[0; 255]; [255; 0]].

(** * The code around the compositors *)

(** A worker reports through one of its two Qt signals; [error] carries the
    exception whose text is emitted. *)
Inductive signal (A : Type) : Type :=
  | finished (a : A)
  | error (e : exn).
Arguments finished {A} a.
Arguments error {A} e.

(** ** standalone/gerber2lcdmask.py: settings and worker
    (gerber2anycubic_png.py has the same [apply_user_values].) *)

(** What the program uses of pygerber: parsing a file and rendering it at
    [dpmm] dots per millimetre to a greyscale raster, together with the
    layer's [(min_x_mm, max_y_mm, width_mm, height_mm)]. *)
Class Pygerber : Type := {
  GerberFile_render : string -> Z -> result (Image * (Q * Q * Q * Q))
}.

Module GerberMainGUI.
Import Gerber2lcdmask.

(** [MainGUI.apply_user_values] on the module-level variables; the six
    arguments are the values of the six spin boxes.  The status line is a
    label of the window and is left out. *)
Definition apply_user_values (px_w px_h : Z) (d_w d_h p_w p_h : Q)
    : stateful Globals bool :=
  fun g =>
    if (px_w <=? 0) || (px_h <=? 0) || Qle_bool d_w 0 || Qle_bool d_h 0
       || Qle_bool p_w 0 || Qle_bool p_h 0
    then (g, Ok false)
    else
      let g1 := mkGlobals px_w px_h d_w d_h p_w p_h
                  (PX_PER_MM_X g) (PX_PER_MM_Y g) (DRAW_W g) (DRAW_H g) in
      match recompute_scalars g1 with
      | Ok g2 => (g2, Ok true)
      | Raise e => (g1, Raise e)
      end.

Section Worker.
Context `{Pillow} `{Pygerber}.

Definition render_bw_with_origin (g : Globals) (path : string)
    : result (Image * (Q * Q * Q * Q)) :=
  GerberFile_render path (py_int (PX_PER_MM_X g * 2)).

(** [PrepareWorker.run]. *)
Definition PrepareWorker_run (g : Globals) (gerber_path : string)
    (invert mirror : bool) : signal (Image * (Q * Q * Q * Q)) :=
  match
    (r ← render_bw_with_origin g gerber_path;
     canvas_img ← build_canvas g r.1 invert mirror
                    r.2.1.1.1 r.2.1.1.2 r.2.1.2 r.2.2;
     Ok (canvas_img, r.2))
  with
  | Ok v => finished v
  | Raise e => error e
  end.

End Worker.
End GerberMainGUI.

(** ** standalone/bitmap2lcdmask.py and standalone/gds2lcdmask.py: settings
    and workers.  The two files have the module-level variables,
    [recompute_scalars] and [apply_user_values] word for word in common. *)

Module DualCircleMainGUI.

Record Globals : Type := mkGlobals {
  DISPLAY_PIX_W : Z;
  DISPLAY_PIX_H : Z;
  DISPLAY_W_MM : Q;
  DISPLAY_H_MM : Q;
  PX_PER_MM_X : Q;
  PX_PER_MM_Y : Q
}.

Definition CIRCLE_DIAM_MM : Q := 100.
Definition CIRCLE_OFFSET_MM : Q := 60.

Definition recompute_scalars (g : Globals) : result Globals :=
  px_per_mm_x ← py_div (inject_Z (DISPLAY_PIX_W g)) (DISPLAY_W_MM g);
  px_per_mm_y ← py_div (inject_Z (DISPLAY_PIX_H g)) (DISPLAY_H_MM g);
  Ok (mkGlobals (DISPLAY_PIX_W g) (DISPLAY_PIX_H g) (DISPLAY_W_MM g)
        (DISPLAY_H_MM g) px_per_mm_x px_per_mm_y).

Definition apply_user_values (px_w px_h : Z) (d_w d_h : Q)
    : stateful Globals bool :=
  fun g =>
    if (px_w <=? 0) || (px_h <=? 0) || Qle_bool d_w 0 || Qle_bool d_h 0
    then (g, Ok false)
    else
      let g1 := mkGlobals px_w px_h d_w d_h (PX_PER_MM_X g) (PX_PER_MM_Y g) in
      match recompute_scalars g1 with
      | Ok g2 => (g2, Ok true)
      | Raise e => (g1, Raise e)
      end.

Section Workers.
Context `{Pillow} `{Gdspy}.

(** [PrepareWorker.run] of bitmap2lcdmask.py. *)
Definition Bitmap_PrepareWorker_run (input_path : string) (threshold : Z)
    (W_px H_px : Z) (screen_w_mm screen_h_mm circle_diam_mm circle_offset_mm : Q)
    : signal Image :=
  match Bitmap2lcdmask.render_bitmap_to_photomask input_path threshold
          W_px H_px screen_w_mm screen_h_mm circle_diam_mm circle_offset_mm with
  | Ok img => finished img
  | Raise e => error e
  end.

(** [PrepareWorker.run] of gds2lcdmask.py, on the library that the render
    loads. *)
Definition Gds_PrepareWorker_run (uuid4_hex gds_cell_name : string) (layer : Z)
    (W_px H_px : Z) (screen_w_mm screen_h_mm circle_diam_mm circle_offset_mm : Q)
    : gmap string Cell -> gmap string Cell * signal Image :=
  fun cells =>
    match Gds2lcdmask.render_gds_to_photomask uuid4_hex gds_cell_name layer
            W_px H_px screen_w_mm screen_h_mm circle_diam_mm circle_offset_mm cells with
    | (cells', Ok img) => (cells', finished img)
    | (cells', Raise e) => (cells', error e)
    end.

(** The layer combo box of [_load_gds_metadata]: the layer numbers of every
    [(layer, datatype)] key of every cell, each once, in ascending order,
    before [str] turns them into items. *)
Definition layer_set (cells : gmap string Cell) : gset Z :=
  ⋃ ((fun cell => set_map (D := gset Z) fst (dom (Cell_get_polygons cell)))
       <$> (snd <$> map_to_list cells)).

Definition combo_layer_items (cells : gmap string Cell) : list Z :=
  merge_sort Z.le (elements (layer_set cells)).

End Workers.
End DualCircleMainGUI.

(** ** The preview of all tools: [PreviewView.wheelEvent]

    The view is reduced to what the handler computes with: whether a pixmap
    item is there and the horizontal scale [m11] of the view transform, which
    [self.scale(factor, factor)] multiplies by [factor]; the translation that
    keeps the cursor position does not touch it. *)

Module PreviewView.

Record view : Type := mkView {
  pixmap_item : bool;
  m11 : Q;
  min_scale : Q;
  max_scale : Q
}.

(** [angle] is [event.angleDelta().y()]. *)
Definition wheelEvent (v : view) (angle : Z) : result view :=
  if negb (pixmap_item v) then Ok v
  else if angle =? 0 then Ok v
  else
    let factor := if 0 <? angle then 1.25%Q else 0.8%Q in
    let cur_scale := m11 v in
    let new_scale := (cur_scale * factor)%Q in
    factor ←
      (if Qlt_le_dec new_scale (min_scale v)
       then py_div (min_scale v) cur_scale
       else if Qlt_le_dec (max_scale v) new_scale
            then py_div (max_scale v) cur_scale
            else Ok factor);
    Ok (mkView (pixmap_item v) (m11 v * factor) (min_scale v) (max_scale v)).

End PreviewView.

(** ** maskforge_toolkit.py: the shared display model, the two dual-circle
    renders and the three workers *)

Module ToolkitTabs.

(** [DisplayModel]: the four private fields. *)
Record DisplayModel : Type := mkDisplayModel {
  pix_w : Z;
  pix_h : Z;
  mm_w : Q;
  mm_h : Q
}.

(** [float.__ne__]. *)
Definition Qne_bool (a b : Q) : bool := negb (Qeq_bool a b).

(** [DisplayModel.set_values]: the new fields and whether [changed] was
    emitted. *)
Definition set_values (m : DisplayModel) (pix_w' pix_h' : Z) (mm_w' mm_h' : Q)
    : DisplayModel * bool :=
  let changed :=
    negb (pix_w' =? pix_w m) || negb (pix_h' =? pix_h m)
    || Qne_bool mm_w' (mm_w m) || Qne_bool mm_h' (mm_h m) in
  (mkDisplayModel pix_w' pix_h' mm_w' mm_h', changed).

Definition CIRCLE_DIAM_MM_GDS : Q := 100.
Definition CIRCLE_OFFSET_MM_GDS : Q := 60.
Definition CIRCLE_DIAM_MM_BMP : Q := 100.
Definition CIRCLE_OFFSET_MM_BMP : Q := 60.

Section Render.
Context `{Pillow} `{Gdspy}.

Definition _bmp_place_in_circle (base_img content_img : Image) (center : Z * Z)
    (radius_px_x radius_px_y : Z) (threshold : option Z) (invert : bool)
    : result Image :=
  let content_img := convert_L content_img in
  let content_img :=
    match threshold with
    | Some thr => point (fun x => if x >=? thr then 255 else 0) content_img
    | None => content_img
    end in
  let content_img :=
    if invert then ImageOps_invert content_img else content_img in
  let min_side := Z.min (width content_img) (height content_img) in
  let left := (width content_img - min_side) `div` 2 in
  let top := (height content_img - min_side) `div` 2 in
  let content_cropped :=
    crop content_img (left, top, left + min_side, top + min_side) in
  scaled ← Image_resize content_cropped (2 * radius_px_x, 2 * radius_px_y);
  mask ← Image_new (2 * radius_px_x) (2 * radius_px_y) 0;
  let mask := draw (in_ellipse (0, 0, 2 * radius_px_x, 2 * radius_px_y)) 255 mask in
  let paste_position := (center.1 - radius_px_x, center.2 - radius_px_y) in
  Ok (paste base_img scaled paste_position (Some mask)).

Definition _bmp_render_to_photomask (input_path : string) (threshold : Z)
    (disp_pix_w disp_pix_h : Z) (disp_mm_w disp_mm_h : Q)
    (circle_diam_mm circle_offset_mm : Q) : result Image :=
  px_per_mm_x ← py_div (inject_Z disp_pix_w) disp_mm_w;
  px_per_mm_y ← py_div (inject_Z disp_pix_h) disp_mm_h;
  let radius_px_x := py_int (circle_diam_mm / 2 * px_per_mm_x) in
  let radius_px_y := py_int (circle_diam_mm / 2 * px_per_mm_y) in
  let center_y := disp_pix_h `div` 2 in
  let left_center_x := py_int (circle_offset_mm * px_per_mm_x) in
  let right_center_x := py_int ((disp_mm_w - circle_offset_mm) * px_per_mm_x) in
  base ← Image_new disp_pix_w disp_pix_h 0;
  img ← Image_open input_path;
  base ← _bmp_place_in_circle base img (left_center_x, center_y)
           radius_px_x radius_px_y (Some threshold) false;
  base ← _bmp_place_in_circle base img (right_center_x, center_y)
           radius_px_x radius_px_y (Some threshold) true;
  let base := ImageOps_mirror base in
  Ok base.

(** [BitmapWorker.run]; the worker leaves the two circle arguments at their
    defaults. *)
Definition BitmapWorker_run (input_path : string) (threshold : Z)
    (disp_pix_w disp_pix_h : Z) (disp_mm_w disp_mm_h : Q) : signal Image :=
  match _bmp_render_to_photomask input_path threshold disp_pix_w disp_pix_h
          disp_mm_w disp_mm_h CIRCLE_DIAM_MM_BMP CIRCLE_OFFSET_MM_BMP with
  | Ok img => finished img
  | Raise e => error e
  end.

Definition _gds_paste_circle (base img : Image) (rx ry : Z) (px_mm_x px_mm_y : Q)
    (pos : string) (offset_mm : Q) (invert : bool) : result Image :=
  let img := if invert then ImageOps_invert img else img in
  let cy := height base `div` 2 in
  cx ← (if decide (pos = "left")
        then Ok (py_int (offset_mm * px_mm_x))
        else disp_mm_w ← py_div (inject_Z (width base)) px_mm_x;
             Ok (py_int ((disp_mm_w - offset_mm) * px_mm_x)));
  mask ← Image_new (width img) (height img) 0;
  let mask := draw (in_ellipse (0, 0, width img, height img)) 255 mask in
  Ok (paste base img (cx - rx, cy - ry) (Some mask)).

Definition _gds_render_to_photomask (uuid4_hex : string)
    (cell_name : string) (layer : Z) (disp_pix_w disp_pix_h : Z)
    (disp_mm_w disp_mm_h : Q) (circle_diam_mm circle_offset_mm : Q)
    : stateful (gmap string Cell) Image :=
  cells ← get;
  match cells !! cell_name with
  | None => raise (ValueError ("Cell '" +:+ cell_name +:+ "' not found in GDS."))
  | Some original_cell =>
    let temp_name := "__temp_flat__" +:+ uuid4_hex in
    let flat_cell := Cell_flatten (Cell_copy original_cell temp_name) in
    _ ← modify (fun cells =>
           if copy_registers then <[temp_name := flat_cell]> cells else cells);
    let polys := default [] (Cell_get_polygons flat_cell !! (layer, 0)) in
    if decide (polys = []) then
      _ ← modify (Gds2lcdmask.discard temp_name);
      raise (ValueError ("No geometry on layer " +:+ pretty layer +:+ "."))
    else
      px_per_mm_x ← lift (py_div (inject_Z disp_pix_w) disp_mm_w);
      px_per_mm_y ← lift (py_div (inject_Z disp_pix_h) disp_mm_h);
      let radius_px_x := py_int (circle_diam_mm / 2 * px_per_mm_x) in
      let radius_px_y := py_int (circle_diam_mm / 2 * px_per_mm_y) in
      let scale_um_to_px_x := (px_per_mm_x / 1000)%Q in
      let scale_um_to_px_y := (px_per_mm_y / 1000)%Q in
      match Cell_get_bounding_box flat_cell with
      | None =>
        _ ← modify (Gds2lcdmask.discard temp_name);
        raise (ValueError "Empty cell; no bounding box.")
      | Some bbox =>
        let cx_um := ((bbox.1.1 + bbox.2.1) / 2)%Q in
        let cy_um := ((bbox.1.2 + bbox.2.2) / 2)%Q in
        gds_img ← lift (Image_new (2 * radius_px_x) (2 * radius_px_y) 0);
        let gds_img :=
          Gds2lcdmask.draw_polygons gds_img polys cx_um cy_um
            scale_um_to_px_x scale_um_to_px_y radius_px_x radius_px_y in
        base ← lift (Image_new disp_pix_w disp_pix_h 0);
        base ← lift (_gds_paste_circle base gds_img radius_px_x radius_px_y
                       px_per_mm_x px_per_mm_y "left" circle_offset_mm false);
        base ← lift (_gds_paste_circle base gds_img radius_px_x radius_px_y
                       px_per_mm_x px_per_mm_y "right" circle_offset_mm true);
        let base := ImageOps_mirror base in
        _ ← modify (Gds2lcdmask.discard temp_name);
        mret base
      end
  end.

(** The one place where [_gds_render_to_photomask] and
    [render_gds_to_photomask] of standalone/gds2lcdmask.py differ: the text
    of the exception for a flattened cell without bounding box. *)
Definition toolkit_wording (r : result Image) : result Image :=
  match r with
  | Raise (ValueError msg) =>
      if decide (msg = "Empty cell; no bounding box found.")
      then Raise (ValueError "Empty cell; no bounding box.")
      else r
  | _ => r
  end.

(** [GDSWorker.run]. *)
Definition GDSWorker_run (uuid4_hex cell_name : string) (layer : Z)
    (disp_pix_w disp_pix_h : Z) (disp_mm_w disp_mm_h : Q)
    : gmap string Cell -> gmap string Cell * signal Image :=
  fun cells =>
    match _gds_render_to_photomask uuid4_hex cell_name layer disp_pix_w disp_pix_h
            disp_mm_w disp_mm_h CIRCLE_DIAM_MM_GDS CIRCLE_OFFSET_MM_GDS cells with
    | (cells', Ok img) => (cells', finished img)
    | (cells', Raise e) => (cells', error e)
    end.

(** [GerberWorker.run] with pygerber importable ([HAVE_PYGERBER]), which
    [GerberTab.prepare_output] checks before it starts the worker.  The two
    scale factors are computed inside the [try]. *)
Definition GerberWorker_run `{Pygerber} (path : string) (invert mirror : bool)
    (disp_pix_w disp_pix_h : Z) (disp_mm_w disp_mm_h pcb_mm_w pcb_mm_h : Q)
    : signal Image :=
  match
    (px_per_mm_x ← py_div (inject_Z disp_pix_w) disp_mm_w;
     px_per_mm_y ← py_div (inject_Z disp_pix_h) disp_mm_h;
     r ← GerberFile_render path (py_int (px_per_mm_x * 2));
     Toolkit._gerber_build_canvas r.1 invert mirror
       r.2.1.1.1 r.2.1.1.2 r.2.1.2 r.2.2
       disp_pix_w disp_pix_h px_per_mm_x px_per_mm_y pcb_mm_w pcb_mm_h)
  with
  | Ok canvas_img => finished canvas_img
  | Raise e => error e
  end.

End Render.
End ToolkitTabs.

(** ** bitmap2anycubic_png.py and gds2anycubic_png.py, the two scripts with
    the display built in *)

(** What the scripts use of [Image.save]: the file written, or the
    exception. *)
Class PngFile : Type := {
  Image_save : Image -> string -> result unit
}.

(** A modal [QMessageBox]; [critical_exn] is the box whose text is the
    [str] of a caught exception. *)
Inductive message_box : Type :=
  | warning (title text : string)
  | information (title text : string)
  | critical (title text : string)
  | critical_exn (title : string) (e : exn).

Module Bitmap2anycubic.
Section Gui.
Context `{Pillow} `{PngFile}.

Definition place_in_circle (base_img content_img : Image) (center : Z * Z)
    (radius_px_x radius_px_y : Z) (threshold : option Z) (invert : bool)
    : result Image :=
  let content_img := convert_L content_img in
  let content_img :=
    match threshold with
    | Some threshold => point (fun x => if x >=? threshold then 255 else 0) content_img
    | None => content_img
    end in
  let content_img :=
    if invert then ImageOps_invert content_img else content_img in
  let min_side := Z.min (width content_img) (height content_img) in
  let content_cropped :=
    crop content_img ((width content_img - min_side) `div` 2,
                      (height content_img - min_side) `div` 2,
                      (width content_img + min_side) `div` 2,
                      (height content_img + min_side) `div` 2) in
  scaled ← Image_resize content_cropped (2 * radius_px_x, 2 * radius_px_y);
  mask ← Image_new (2 * radius_px_x) (2 * radius_px_y) 0;
  let mask := draw (in_ellipse (0, 0, 2 * radius_px_x, 2 * radius_px_y)) 255 mask in
  let paste_position := (center.1 - radius_px_x, center.2 - radius_px_y) in
  Ok (paste base_img scaled paste_position (Some mask)).

Definition erzeuge_bild (input_path output_path : string) (threshold : Z)
    : result unit :=
  let width_px := 13312 in
  let height_px := 5120 in
  let screen_width_mm := 223.642%Q in
  let screen_height_mm := 126.48%Q in
  px_per_mm_x ← py_div (inject_Z width_px) screen_width_mm;
  px_per_mm_y ← py_div (inject_Z height_px) screen_height_mm;
  let radius_px_x := py_int (100 / 2 * px_per_mm_x) in
  let radius_px_y := py_int (100 / 2 * px_per_mm_y) in
  let center_y := height_px `div` 2 in
  let left_center_x := py_int (60 * px_per_mm_x) in
  let right_center_x := py_int ((screen_width_mm - 60) * px_per_mm_x) in
  base ← Image_new width_px height_px 0;
  img ← Image_open input_path;
  base ← place_in_circle base img (left_center_x, center_y)
           radius_px_x radius_px_y (Some threshold) false;
  base ← place_in_circle base img (right_center_x, center_y)
           radius_px_x radius_px_y (Some threshold) true;
  let base := ImageOps_mirror base in
  Image_save base output_path.

(** [KreisProjektorGUI.verarbeiten]: [image_path] is the attribute of that
    name ([None] while no image was chosen), [threshold] the value of the
    spin box and [dialog] the file name that the save dialog returned
    ([None] for the empty string of a cancelled dialog).  The result is the
    list of message boxes shown. *)
Definition verarbeiten (image_path : option string) (threshold : Z)
    (dialog : option string) : list message_box :=
  match image_path with
  | None => [warning "Fehler" "Bitte wähle zuerst ein Bild aus."]
  | Some image_path =>
    match dialog with
    | None => []
    | Some output_path =>
      match erzeuge_bild image_path output_path threshold with
      | Ok _ =>
        [information "Fertig"
           ("Bild gespeichert unter:" +:+ String (Ascii.ascii_of_nat 10) output_path)]
      | Raise e => [critical_exn "Fehler" e]
      end
    end
  end.

End Gui.
End Bitmap2anycubic.

Module Gds2anycubic.

(** How a slot can end other than by returning: the exceptions that
    [verarbeiten] does not catch. *)
Inductive escape : Type :=
  | KeyError (key : string)
  | TypeError (msg : string)
  | Uncaught (e : exn).

Section Gui.
Context `{Pillow} `{Gdspy} `{PngFile}.

Definition paste_circle (base img : Image) (rx ry : Z) (px_mm_x px_mm_y : Q)
    (pos : string) (invert : bool) : result Image :=
  let img := if invert then ImageOps_invert img else img in
  let cy := height base `div` 2 in
  cx ← (if decide (pos = "left")
        then Ok (py_int (60 * px_mm_x))
        else q ← py_div (inject_Z (width base)) px_mm_x;
             Ok (py_int ((q - 60) * px_mm_x)));
  mask ← Image_new (width img) (height img) 0;
  let mask := draw (in_ellipse (0, 0, width img, height img)) 255 mask in
  Ok (paste base img (cx - rx, cy - ry) (Some mask)).

(** Lines 77 to 111 of [verarbeiten], from the display constants to the
    mirrored canvas, for the polygons and the bounding box of the flattened
    copy. *)
Definition compose (polys : list (list (Q * Q))) (bbox : (Q * Q) * (Q * Q))
    : result Image :=
  let W_px := 13312 in
  let H_px := 5120 in
  let screen_width_mm := 223.642%Q in
  let screen_height_mm := 126.48%Q in
  px_per_mm_x ← py_div (inject_Z W_px) screen_width_mm;
  px_per_mm_y ← py_div (inject_Z H_px) screen_height_mm;
  let radius_px_x := py_int (50 * px_per_mm_x) in
  let radius_px_y := py_int (50 * px_per_mm_y) in
  let scale_um_to_px_x := (px_per_mm_x / 1000)%Q in
  let scale_um_to_px_y := (px_per_mm_y / 1000)%Q in
  let cx_um := ((bbox.1.1 + bbox.2.1) / 2)%Q in
  let cy_um := ((bbox.1.2 + bbox.2.2) / 2)%Q in
  gds_img ← Image_new (2 * radius_px_x) (2 * radius_px_y) 0;
  let gds_img :=
    Gds2lcdmask.draw_polygons gds_img polys cx_um cy_um
      scale_um_to_px_x scale_um_to_px_y radius_px_x radius_px_y in
  base ← Image_new W_px H_px 0;
  base ← paste_circle base gds_img radius_px_x radius_px_y
           px_per_mm_x px_per_mm_y "left" false;
  base ← paste_circle base gds_img radius_px_x radius_px_y
           px_per_mm_x px_per_mm_y "right" true;
  Ok (ImageOps_mirror base).

(** [GDSKreisProjektorGUI.verarbeiten] on [self.library] ([None] before a
    file was loaded, else its [cells]).  [combo_cell] is the current text of
    the cell box, [combo_layer] the number in the layer box ([None] for the
    empty box, on whose text [int] raises) and [dialog] the file chosen in
    the save dialog ([None] when it was cancelled).  The result is the
    library afterwards, the message boxes shown and the exception that left
    the slot, if any. *)
Definition verarbeiten (combo_cell : string) (combo_layer : option Z)
    (dialog : option string) (library : option (gmap string Cell))
    : option (gmap string Cell) * list message_box * option escape :=
  match library with
  | None => (None, [warning "Fehler" "Bitte GDS-Datei laden."], None)
  | Some cells =>
    match cells !! combo_cell with
    | None => (Some cells, [], Some (KeyError combo_cell))
    | Some original_cell =>
      match combo_layer with
      | None =>
        (Some cells, [],
         Some (Uncaught (ValueError "invalid literal for int() with base 10: ''")))
      | Some layer =>
        let flat_cell := Cell_flatten (Cell_copy original_cell "__temp_flat__") in
        let cells :=
          if copy_registers then <["__temp_flat__" := flat_cell]> cells else cells in
        let polys := default [] (Cell_get_polygons flat_cell !! (layer, 0)) in
        if decide (polys = []) then
          (Some cells,
           [critical "Fehler" ("Keine Geometrie auf Layer " +:+ pretty layer)], None)
        else
          match dialog with
          | None => (Some cells, [], None)
          | Some output_path =>
            match Cell_get_bounding_box flat_cell with
            | None =>
              (Some cells, [],
               Some (TypeError "'NoneType' object is not subscriptable"))
            | Some bbox =>
              match compose polys bbox with
              | Raise e => (Some cells, [], Some (Uncaught e))
              | Ok base =>
                let boxes :=
                  match Image_save base output_path with
                  | Ok _ => [information "Fertig" ("Gespeichert: " +:+ output_path)]
                  | Raise e => [critical_exn "Fehler beim Speichern" e]
                  end in
                (Some (Gds2lcdmask.discard "__temp_flat__" cells), boxes, None)
              end
            end
          end
      end
    end
  end.

End Gui.
End Gds2anycubic.

(** ** Executable instances for the workers and the scripts *)

(** A Gerber engine that knows one file: a layer of 2 x 2 mm whose origin
    is its top-left corner, rendered as a checkerboard at any resolution. *)
Definition sample_pygerber : Pygerber :=
  {| GerberFile_render := fun path dpmm =>
       if decide (path = "top.gbr")
       then Ok (mkImage 2 2 [[0; 255]; [255; 0]], (0, 0, 2, 2)%Q)
       else Raise (OSError "No such file or directory") |}.

(** A file system that takes every file but [/]. *)
Definition sample_png : PngFile :=
  {| Image_save := fun _ path =>
       if decide (path = "/") then Raise (OSError "Is a directory") else Ok tt |}.

(** A library with a second cell whose only polygon has datatype 5. *)
Definition sample_library2 : gmap string (list (Z * Z * list (Q * Q))) :=
  <[ "AUX" := [(7, 5, [(0, 0); (10, 0); (10, 10)]%Q)] ]> sample_library.

(** A preview zoomed to 9, with the limits of the standalone tools. *)
Definition sample_view : PreviewView.view :=
  PreviewView.mkView true 9 0.05 10.

(** A display before any setting was applied. *)
Definition sample_display : DualCircleMainGUI.Globals :=
  DualCircleMainGUI.mkGlobals 13312 5120 223.642 126.48 0 0.

(** * Properties *)

(** ** Images *)

Section ImageFacts.

Lemma mirror_involutive im : ImageOps_mirror (ImageOps_mirror im) = im.
Proof.
  destruct im as [w h rs]. unfold ImageOps_mirror. simpl. f_equal.
  rewrite <- list_fmap_compose.
  rewrite <- (list_fmap_id rs) at 2.
  apply list_fmap_ext. intros i r _. simpl. apply reverse_involutive.
Qed.

Lemma Image_new_Ok w h fill im :
  Image_new w h fill = Ok im ->
  0 <= w /\ 0 <= h /\
  im = mkImage w h (replicate (Z.to_nat h) (replicate (Z.to_nat w) fill)).
Proof.
  unfold Image_new. destruct (w <? 0) eqn:Hw; destruct (h <? 0) eqn:Hh; simpl;
    intros [= <-]. split_and!; [lia | lia | done].
Qed.

Lemma Image_new_succeeds w h fill :
  0 <= w -> 0 <= h ->
  Image_new w h fill = Ok (mkImage w h (replicate (Z.to_nat h) (replicate (Z.to_nat w) fill))).
Proof.
  intros Hw Hh. unfold Image_new.
  destruct (w <? 0) eqn:E1; [lia|]. destruct (h <? 0) eqn:E2; [lia|]. done.
Qed.

Lemma Image_new_well_formed w h fill im :
  Image_new w h fill = Ok im -> well_formed im /\ width im = w /\ height im = h.
Proof.
  intros (Hw & Hh & ->)%Image_new_Ok. unfold well_formed. simpl.
  split_and!; try done.
  - by rewrite length_replicate.
  - apply Forall_replicate. by rewrite length_replicate.
Qed.

Lemma getpixel_Some_range im x y v :
  well_formed im -> getpixel im x y = Some v ->
  0 <= x < width im /\ 0 <= y < height im.
Proof.
  intros (Hw & Hh & Hlen & Hrows). unfold getpixel.
  destruct (0 <=? x) eqn:Ex; destruct (0 <=? y) eqn:Ey; simpl; try done.
  destruct (rows im !! Z.to_nat y) as [r|] eqn:Hr; simpl; [|done].
  intros Hx. apply lookup_lt_Some in Hx. 
  pose proof (lookup_lt_Some _ _ _ Hr) as Hy.
  rewrite Forall_lookup in Hrows. specialize (Hrows _ _ Hr). lia.
Qed.

Lemma getpixel_in_range im x y :
  well_formed im -> 0 <= x < width im -> 0 <= y < height im ->
  is_Some (getpixel im x y).
Proof.
  intros (Hw & Hh & Hlen & Hrows) Hx Hy. unfold getpixel.
  destruct (0 <=? x) eqn:Ex; [|lia]. destruct (0 <=? y) eqn:Ey; [|lia]. simpl.
  destruct (lookup_lt_is_Some_2 (rows im) (Z.to_nat y)) as [r Hr]; [lia|].
  rewrite Hr. simpl. apply lookup_lt_is_Some_2.
  rewrite Forall_lookup in Hrows. rewrite (Hrows _ _ Hr). lia.
Qed.

Lemma getpixel_new w h fill im x y :
  Image_new w h fill = Ok im ->
  getpixel im x y =
    if decide (0 <= x < w /\ 0 <= y < h) then Some fill else None.
Proof.
  intros (Hw & Hh & ->)%Image_new_Ok. unfold getpixel. simpl.
  case_decide as Hin.
  - destruct (0 <=? x) eqn:Ex; [|lia]. destruct (0 <=? y) eqn:Ey; [|lia]. simpl.
    rewrite lookup_replicate_2 by lia. simpl.
    by rewrite lookup_replicate_2 by lia.
  - destruct (0 <=? x) eqn:Ex; destruct (0 <=? y) eqn:Ey; simpl; try done.
    destruct (replicate (Z.to_nat h) (replicate (Z.to_nat w) fill) !! Z.to_nat y)
      as [r|] eqn:Hr; simpl; [|done].
    apply lookup_replicate in Hr as [-> Hy].
    apply lookup_replicate_None. lia.
Qed.

Lemma getpixel_paste base im box mask X Y :
  getpixel (paste base im box mask) X Y =
    d ← getpixel base X Y; Some (paste_pixel im mask (X - box.1) (Y - box.2) d).
Proof.
  unfold getpixel, paste. simpl.
  destruct (0 <=? X) eqn:Ex; destruct (0 <=? Y) eqn:Ey; simpl; try done.
  rewrite list_lookup_imap.
  destruct (rows base !! Z.to_nat Y) as [r|]; simpl; [|done].
  rewrite list_lookup_imap.
  destruct (r !! Z.to_nat X) as [d|]; simpl; [|done].
  rewrite !Z2Nat.id by lia. done.
Qed.

Lemma getpixel_draw inside fill im X Y :
  getpixel (draw inside fill im) X Y =
    d ← getpixel im X Y; Some (if inside X Y then fill else d).
Proof.
  unfold getpixel, draw. simpl.
  destruct (0 <=? X) eqn:Ex; destruct (0 <=? Y) eqn:Ey; simpl; try done.
  rewrite list_lookup_imap.
  destruct (rows im !! Z.to_nat Y) as [r|]; simpl; [|done].
  rewrite list_lookup_imap.
  destruct (r !! Z.to_nat X) as [d|]; simpl; [|done].
  rewrite !Z2Nat.id by lia. done.
Qed.

Lemma getpixel_point f im x y :
  getpixel (point f im) x y = f <$> getpixel im x y.
Proof.
  unfold getpixel, point. simpl.
  destruct (0 <=? x) eqn:Ex; destruct (0 <=? y) eqn:Ey; simpl; try done.
  rewrite list_lookup_fmap.
  destruct (rows im !! Z.to_nat y) as [r|]; simpl; [|done].
  by rewrite list_lookup_fmap.
Qed.

Lemma getpixel_mirror im x y :
  well_formed im -> 0 <= x < width im ->
  getpixel (ImageOps_mirror im) x y = getpixel im (width im - 1 - x) y.
Proof.
  intros (Hw & Hh & Hlen & Hrows) Hx. unfold getpixel, ImageOps_mirror. simpl.
  destruct (0 <=? x) eqn:Ex; [|lia].
  destruct (0 <=? width im - 1 - x) eqn:Ex'; [|lia]. simpl.
  destruct (0 <=? y) eqn:Ey; simpl; [|done].
  rewrite list_lookup_fmap.
  destruct (rows im !! Z.to_nat y) as [r|] eqn:Hr; simpl; [|done].
  rewrite Forall_lookup in Hrows. specialize (Hrows _ _ Hr).
  rewrite reverse_lookup by lia. f_equal. lia.
Qed.


Lemma eight_bit_getpixel im :
  eight_bit im <-> (forall x y v, getpixel im x y = Some v -> 0 <= v <= 255).
Proof.
  unfold eight_bit, getpixel. split.
  - intros Hall x y v.
    destruct (0 <=? x); destruct (0 <=? y); simpl; try done.
    destruct (rows im !! Z.to_nat y) as [r|] eqn:Hr; simpl; [|done].
    intros Hv. rewrite Forall_lookup in Hall. specialize (Hall _ _ Hr).
    rewrite Forall_lookup in Hall. exact (Hall _ _ Hv).
  - intros Hpix. apply Forall_lookup. intros i r Hr.
    apply Forall_lookup. intros j v Hv.
    apply (Hpix (Z.of_nat j) (Z.of_nat i)).
    destruct (Z.leb_spec 0 (Z.of_nat j)); [|lia].
    destruct (Z.leb_spec 0 (Z.of_nat i)); [|lia]. simpl.
    rewrite !Nat2Z.id, Hr. simpl. exact Hv.
Qed.

Lemma well_formed_imap (f : nat -> nat -> Z -> Z) im :
  well_formed im ->
  well_formed (mkImage (width im) (height im)
                 (imap (fun Y row => imap (f Y) row) (rows im))).
Proof.
  intros (Hw & Hh & Hlen & Hrows). unfold well_formed. simpl.
  split_and!; try done.
  - by rewrite length_imap.
  - apply Forall_lookup. intros i r Hr.
    rewrite list_lookup_imap in Hr.
    destruct (rows im !! i) as [r0|] eqn:Hr0; simplify_eq/=.
    rewrite length_imap. rewrite Forall_lookup in Hrows. eauto.
Qed.

Lemma well_formed_paste base im box mask :
  well_formed base -> well_formed (paste base im box mask).
Proof. intros Hb. unfold paste. by apply well_formed_imap with (f := fun Y X d => _). Qed.

Lemma well_formed_draw inside fill im :
  well_formed im -> well_formed (draw inside fill im).
Proof. intros Hb. unfold draw. by apply well_formed_imap with (f := fun Y X d => _). Qed.

Lemma well_formed_point f im : well_formed im -> well_formed (point f im).
Proof.
  intros (Hw & Hh & Hlen & Hrows). unfold well_formed, point. simpl.
  split_and!; try done.
  - by rewrite length_fmap.
  - apply Forall_fmap. eapply Forall_impl; [exact Hrows|].
    intros r Hr. simpl. by rewrite length_fmap.
Qed.

Lemma well_formed_mirror im : well_formed im -> well_formed (ImageOps_mirror im).
Proof.
  intros (Hw & Hh & Hlen & Hrows). unfold well_formed, ImageOps_mirror. simpl.
  split_and!; try done.
  - by rewrite length_fmap.
  - apply Forall_fmap. eapply Forall_impl; [exact Hrows|].
    intros r Hr. simpl. by rewrite length_reverse.
Qed.

Lemma eight_bit_new w h fill im :
  0 <= fill <= 255 -> Image_new w h fill = Ok im -> eight_bit im.
Proof.
  intros Hf Hnew. apply eight_bit_getpixel. intros x y v.
  rewrite (getpixel_new _ _ _ _ _ _ Hnew).
  case_decide; [intros [= <-]; lia | done].
Qed.

Lemma eight_bit_point f im :
  (forall v, 0 <= f v <= 255) -> eight_bit (point f im).
Proof.
  intros Hf. apply eight_bit_getpixel. intros x y v.
  rewrite getpixel_point.
  destruct (getpixel im x y); simpl; [intros [= <-]; apply Hf | done].
Qed.

Lemma eight_bit_invert im : eight_bit im -> eight_bit (ImageOps_invert im).
Proof.
  rewrite !eight_bit_getpixel. intros Him x y v.
  unfold ImageOps_invert. rewrite getpixel_point.
  destruct (getpixel im x y) as [p|] eqn:Hp; simpl; [|done].
  intros [= <-]. specialize (Him _ _ _ Hp). lia.
Qed.

Lemma eight_bit_mirror im : eight_bit im -> eight_bit (ImageOps_mirror im).
Proof.
  unfold eight_bit, ImageOps_mirror. simpl. intros Him.
  apply Forall_fmap. eapply Forall_impl; [exact Him|].
  intros r Hr. simpl. by apply Forall_reverse.
Qed.

Lemma eight_bit_draw inside fill im :
  0 <= fill <= 255 -> eight_bit im -> eight_bit (draw inside fill im).
Proof.
  rewrite !eight_bit_getpixel. intros Hf Him x y v.
  rewrite getpixel_draw.
  destruct (getpixel im x y) as [p|] eqn:Hp; simpl; [|done].
  intros [= <-]. specialize (Him _ _ _ Hp). destruct (inside x y); lia.
Qed.

Lemma eight_bit_paste base im box :
  eight_bit base -> eight_bit im -> eight_bit (paste base im box None).
Proof.
  rewrite !eight_bit_getpixel. intros Hb Him x y v.
  rewrite getpixel_paste.
  destruct (getpixel base x y) as [d|] eqn:Hd; simpl; [|done].
  intros [= <-]. unfold paste_pixel.
  destruct (getpixel im (x - box.1) (y - box.2)) eqn:Hs; eauto.
Qed.

Lemma eight_bit_paste_masked base im box m :
  eight_bit base -> eight_bit im ->
  (forall u v a, getpixel m u v = Some a -> a = 0 \/ a = 255) ->
  eight_bit (paste base im box (Some m)).
Proof.
  rewrite !eight_bit_getpixel. intros Hb Him Hm x y v.
  rewrite getpixel_paste.
  destruct (getpixel base x y) as [d|] eqn:Hd; simpl; [|done].
  intros [= <-]. unfold paste_pixel.
  destruct (getpixel im (x - box.1) (y - box.2)) eqn:Hs; eauto.
  destruct (getpixel m (x - box.1) (y - box.2)) eqn:Ha; eauto.
  destruct (Hm _ _ _ Ha) as [-> | ->]; unfold blend; simpl; eauto.
Qed.

(** The mask that both placement functions build: a fresh black image with
    the ellipse drawn in 255. *)
Lemma ellipse_mask_binary inside w h m0 u v a :
  Image_new w h 0 = Ok m0 ->
  getpixel (draw inside 255 m0) u v = Some a -> a = 0 \/ a = 255.
Proof.
  intros Hnew. rewrite getpixel_draw, (getpixel_new _ _ _ _ _ _ Hnew).
  case_decide; simpl; [|done]. intros [= <-]. destruct (inside u v); auto.
Qed.


Lemma getpixel_outside im x y :
  well_formed im -> ~ (0 <= x < width im /\ 0 <= y < height im) ->
  getpixel im x y = None.
Proof.
  intros Hwf Hout. destruct (getpixel im x y) as [v|] eqn:Hv; [|done].
  destruct Hout. by eapply getpixel_Some_range.
Qed.

Lemma getpixel_mirror_total im x y :
  well_formed im ->
  getpixel (ImageOps_mirror im) x y =
    if decide (0 <= x < width im) then getpixel im (width im - 1 - x) y else None.
Proof.
  intros Hwf. case_decide as Hx.
  - by apply getpixel_mirror.
  - apply getpixel_outside; [by apply well_formed_mirror|]. simpl. tauto.
Qed.

Lemma paste_pixel_unmasked im u v d :
  paste_pixel im None u v d = default d (getpixel im u v).
Proof. unfold paste_pixel. by destruct (getpixel im u v). Qed.

(** Inverting commutes with cropping inside the image. *)
Lemma crop_invert im x0 y0 x1 y1 :
  well_formed im -> 0 <= x0 -> 0 <= y0 -> x1 <= width im -> y1 <= height im ->
  crop (ImageOps_invert im) (x0, y0, x1, y1) = ImageOps_invert (crop im (x0, y0, x1, y1)).
Proof.
  intros Hwf Hx0 Hy0 Hx1 Hy1. unfold crop, ImageOps_invert, point. simpl. f_equal.
  rewrite <- list_fmap_compose. apply Forall_fmap_ext, Forall_seqZ.
  intros y Hy. simpl.
  rewrite <- list_fmap_compose. apply Forall_fmap_ext, Forall_seqZ.
  intros x Hx. simpl.
  change (mkImage (width im) (height im)
            ((fun r : list Z => (fun v => 255 - v) <$> r) <$> rows im))
    with (point (fun v => 255 - v) im).
  rewrite getpixel_point.
  destruct (getpixel_in_range im x y Hwf) as [v ->]; [lia | lia | done].
Qed.

End ImageFacts.

(** Inversion of a successful sequence. *)
Ltac bind_ok H :=
  match type of H with
  | mbind _ ?r = Ok _ =>
      let E := fresh "E" in
      let x := fresh "x" in
      destruct r as [x|] eqn:E; simpl in H; [|discriminate H]
  end.

(** ** The PCB-canvas compositor *)

Section Gerber.
Context `{Pillow}.

Lemma gerber_canvas_structure img invert mirror min_x_mm max_y_mm w_mm h_mm
    disp_pix_w disp_pix_h px_per_mm_x px_per_mm_y pcb_w_mm pcb_h_mm canvas :
  Toolkit._gerber_build_canvas img invert mirror min_x_mm max_y_mm w_mm h_mm
    disp_pix_w disp_pix_h px_per_mm_x px_per_mm_y pcb_w_mm pcb_h_mm = Ok canvas ->
  let draw_w := py_ceil (pcb_w_mm * px_per_mm_x) in
  let draw_h := py_ceil (pcb_h_mm * px_per_mm_y) in
  exists layer canvas_pcb blank,
    Image_resize img (py_int (px_per_mm_x * w_mm), py_int (px_per_mm_y * h_mm)) = Ok layer /\
    Image_new draw_w draw_h 255 = Ok canvas_pcb /\
    Image_new disp_pix_w disp_pix_h 0 = Ok blank /\
    let pasted :=
      paste canvas_pcb layer
        (py_round (min_x_mm * px_per_mm_x), py_round (- max_y_mm * px_per_mm_y)) None in
    let mirrored := if mirror then ImageOps_mirror pasted else pasted in
    let inverted := if invert then ImageOps_invert mirrored else mirrored in
    canvas = paste blank inverted
               ((disp_pix_w - draw_w) `div` 2, (disp_pix_h - draw_h) `div` 2) None.
Proof.
  unfold Toolkit._gerber_build_canvas. intros Hc.
  bind_ok Hc. bind_ok Hc. bind_ok Hc. injection Hc as <-.
  eexists _, _, _. split_and!; eauto.
Qed.

(** Every pixel of the Gerber canvas, read back through the two pastes. *)
Lemma gerber_canvas_pixel img invert mirror min_x_mm max_y_mm w_mm h_mm
    disp_pix_w disp_pix_h px_per_mm_x px_per_mm_y pcb_w_mm pcb_h_mm canvas :
  Toolkit._gerber_build_canvas img invert mirror min_x_mm max_y_mm w_mm h_mm
    disp_pix_w disp_pix_h px_per_mm_x px_per_mm_y pcb_w_mm pcb_h_mm = Ok canvas ->
  let draw_w := py_ceil (pcb_w_mm * px_per_mm_x) in
  let draw_h := py_ceil (pcb_h_mm * px_per_mm_y) in
  let offset_x := py_round (min_x_mm * px_per_mm_x) in
  let offset_y := py_round (- max_y_mm * px_per_mm_y) in
  let x0 := (disp_pix_w - draw_w) `div` 2 in
  let y0 := (disp_pix_h - draw_h) `div` 2 in
  exists layer,
    Image_resize img (py_int (px_per_mm_x * w_mm), py_int (px_per_mm_y * h_mm)) = Ok layer /\
    forall X Y,
      getpixel canvas X Y =
        if decide (0 <= X < disp_pix_w /\ 0 <= Y < disp_pix_h) then
          Some (if decide (0 <= X - x0 < draw_w /\ 0 <= Y - y0 < draw_h) then
                  let u := if mirror then draw_w - 1 - (X - x0) else X - x0 in
                  let p := default 255 (getpixel layer (u - offset_x) (Y - y0 - offset_y)) in
                  if invert then 255 - p else p
                else 0)
        else None.
Proof.
  intros Hc draw_w draw_h offset_x offset_y x0 y0.
  destruct (gerber_canvas_structure _ _ _ _ _ _ _ _ _ _ _ _ _ _ Hc)
    as (layer & canvas_pcb & blank & Hres & Hpcb & Hblank & ->).
  exists layer. split; [done|]. intros X Y.
  fold draw_w draw_h offset_x offset_y x0 y0 in Hpcb |- *.
  set (pasted := paste canvas_pcb layer (offset_x, offset_y) None).
  assert (Hsub : forall u v,
    getpixel pasted u v =
      if decide (0 <= u < draw_w /\ 0 <= v < draw_h)
      then Some (default 255 (getpixel layer (u - offset_x) (v - offset_y)))
      else None).
  { intros u v. unfold pasted. rewrite getpixel_paste.
    rewrite (getpixel_new _ _ _ _ _ _ Hpcb). case_decide; [|done]. simpl.
    by rewrite paste_pixel_unmasked. }
  assert (Hwf : well_formed pasted /\ width pasted = draw_w).
  { destruct (Image_new_well_formed _ _ _ _ Hpcb) as (Hwf & Hw & _).
    split; [by apply well_formed_paste | done]. }
  destruct Hwf as [Hwf Hw].
  set (mirrored := if mirror then ImageOps_mirror pasted else pasted).
  assert (Hmir : forall u v,
    getpixel mirrored u v =
      if decide (0 <= u < draw_w /\ 0 <= v < draw_h)
      then Some (default 255 (getpixel layer
                   ((if mirror then draw_w - 1 - u else u) - offset_x) (v - offset_y)))
      else None).
  { intros u v. unfold mirrored. destruct mirror; [|apply Hsub].
    rewrite getpixel_mirror_total by done. rewrite Hw, Hsub.
    repeat case_decide; try done; lia. }
  rewrite getpixel_paste, (getpixel_new _ _ _ _ _ _ Hblank).
  case_decide; [|done]. simpl. f_equal. rewrite paste_pixel_unmasked.
  destruct invert.
  - unfold ImageOps_invert. rewrite getpixel_point, Hmir. by case_decide.
  - rewrite Hmir. by case_decide.
Qed.

(** The standalone tool reads the same quantities from its module-level
    variables. *)
Lemma build_canvas_toolkit g0 g img invert mirror min_x_mm max_y_mm w h :
  Gerber2lcdmask.recompute_scalars g0 = Ok g ->
  Gerber2lcdmask.build_canvas g img invert mirror min_x_mm max_y_mm w h =
  Toolkit._gerber_build_canvas img invert mirror min_x_mm max_y_mm w h
    (Gerber2lcdmask.DISPLAY_PIX_W g0) (Gerber2lcdmask.DISPLAY_PIX_H g0)
    (Gerber2lcdmask.PX_PER_MM_X g) (Gerber2lcdmask.PX_PER_MM_Y g)
    (Gerber2lcdmask.PCB_W_MM g0) (Gerber2lcdmask.PCB_H_MM g0).
Proof.
  unfold Gerber2lcdmask.recompute_scalars. intros Hg.
  bind_ok Hg. bind_ok Hg. injection Hg as <-. reflexivity.
Qed.

(** The compositor returns a canvas whenever the resampler delivers the
    layer, the display size is not negative and the PCB size in pixels is
    not negative. *)
Lemma gerber_build_canvas_succeeds img invert mirror min_x_mm max_y_mm w_mm h_mm
    disp_pix_w disp_pix_h px_per_mm_x px_per_mm_y pcb_w_mm pcb_h_mm layer :
  Image_resize img (py_int (px_per_mm_x * w_mm), py_int (px_per_mm_y * h_mm)) = Ok layer ->
  0 <= disp_pix_w -> 0 <= disp_pix_h ->
  (0 <= pcb_w_mm * px_per_mm_x)%Q -> (0 <= pcb_h_mm * px_per_mm_y)%Q ->
  exists canvas,
    Toolkit._gerber_build_canvas img invert mirror min_x_mm max_y_mm w_mm h_mm
      disp_pix_w disp_pix_h px_per_mm_x px_per_mm_y pcb_w_mm pcb_h_mm = Ok canvas.
Proof.
  intros Hres HW HH Hpw Hph. unfold Toolkit._gerber_build_canvas.
  rewrite Hres. simpl.
  assert (forall q, (0 <= q)%Q -> 0 <= py_ceil q) as Hceil.
  { intros q Hq. unfold py_ceil. rewrite <- (Qceiling_Z 0). by apply Qceiling_resp_le. }
  rewrite (Image_new_succeeds (py_ceil _) (py_ceil _)) by auto. simpl.
  rewrite (Image_new_succeeds disp_pix_w disp_pix_h) by auto. simpl.
  eauto.
Qed.





(** The format of the Gerber canvas: the display size, rows of that shape
    and, for an 8-bit raster under a resampler that keeps images 8-bit,
    8-bit intensities. *)
Lemma gerber_canvas_format img invert mirror min_x_mm max_y_mm w_mm h_mm
    disp_pix_w disp_pix_h px_per_mm_x px_per_mm_y pcb_w_mm pcb_h_mm canvas :
  Toolkit._gerber_build_canvas img invert mirror min_x_mm max_y_mm w_mm h_mm
    disp_pix_w disp_pix_h px_per_mm_x px_per_mm_y pcb_w_mm pcb_h_mm = Ok canvas ->
  width canvas = disp_pix_w /\ height canvas = disp_pix_h /\
  well_formed canvas /\
  ((forall im size out, eight_bit im -> Image_resize im size = Ok out -> eight_bit out) ->
   eight_bit img -> eight_bit canvas).
Proof.
  intros Hc.
  destruct (gerber_canvas_structure _ _ _ _ _ _ _ _ _ _ _ _ _ _ Hc)
    as (layer & canvas_pcb & blank & Hres & Hpcb & Hblank & ->).
  destruct (Image_new_well_formed _ _ _ _ Hblank) as (Hwf & Hw & Hh).
  split_and!; try done.
  - by apply well_formed_paste.
  - intros Hresize Himg.
    apply eight_bit_paste; [by eapply eight_bit_new; [|exact Hblank]|].
    assert (eight_bit (paste canvas_pcb layer
              (py_round (min_x_mm * px_per_mm_x), py_round (- max_y_mm * px_per_mm_y))
              None)) as Hp.
    { apply eight_bit_paste; [by eapply eight_bit_new; [|exact Hpcb]|].
      by eapply Hresize. }
    destruct mirror, invert; auto using eight_bit_mirror, eight_bit_invert.
Qed.

End Gerber.

(** ** Transform arithmetic *)

Section Numerics.

Lemma py_int_comp x y : (x == y)%Q -> py_int x = py_int y.
Proof.
  intros Hxy. unfold py_int.
  destruct (Qle_bool 0 x) eqn:Hx, (Qle_bool 0 y) eqn:Hy.
  - by apply Qfloor_comp.
  - apply Qle_bool_iff in Hx. rewrite Hxy in Hx. apply Qle_bool_iff in Hx. congruence.
  - apply Qle_bool_iff in Hy. rewrite <- Hxy in Hy. apply Qle_bool_iff in Hy. congruence.
  - by apply Qceiling_comp.
Qed.

Lemma py_div_Ok a b q : py_div a b = Ok q -> ~ (b == 0)%Q /\ q = (a / b)%Q.
Proof.
  unfold py_div. destruct (Qeq_bool b 0) eqn:Hb; [done|]. intros [= <-].
  split; [|done]. by apply Qeq_bool_neq.
Qed.

Lemma py_div_nonzero a b : ~ (b == 0)%Q -> py_div a b = Ok (a / b)%Q.
Proof.
  intros Hb. unfold py_div. destruct (Qeq_bool b 0) eqn:E; [|done].
  by apply Qeq_bool_iff in E.
Qed.

(** [base.width / px_mm_x] gives the display width in millimetres back. *)
Lemma disp_mm_w_roundtrip W_px sw px_per_mm_x disp_mm_w :
  py_div (inject_Z W_px) sw = Ok px_per_mm_x ->
  py_div (inject_Z W_px) px_per_mm_x = Ok disp_mm_w ->
  (disp_mm_w == sw)%Q.
Proof.
  intros [Hsw ->]%py_div_Ok [Hpx ->]%py_div_Ok.
  assert (~ (inject_Z W_px == 0)%Q) as HW.
  { intros HW. apply Hpx. rewrite HW. unfold Qdiv. apply Qmult_0_l. }
  field. split; done.
Qed.

Lemma Qdiv_nonzero a b : ~ (a == 0)%Q -> ~ (b == 0)%Q -> ~ (a / b == 0)%Q.
Proof.
  intros Ha Hb Hz. apply Ha.
  rewrite <- (Qmult_div_r a b Hb). rewrite Hz. ring.
Qed.

Lemma py_int_nonneg q : (0 <= q)%Q -> 0 <= py_int q.
Proof.
  intros Hq. unfold py_int.
  rewrite (proj2 (Qle_bool_iff 0 q) Hq).
  rewrite <- (Qfloor_Z 0). by apply Qfloor_resp_le.
Qed.

End Numerics.

(** ** The dual-circle compositor *)

Section DualCircle.
Context `{Pillow} `{Gdspy}.

Lemma eight_bit_crop im box : eight_bit im -> eight_bit (crop im box).
Proof.
  intros Him. destruct box as [[[x0 y0] x1] y1]. unfold eight_bit, crop. simpl.
  apply Forall_fmap, Forall_forall. intros y _. simpl.
  apply Forall_fmap, Forall_forall. intros x _. simpl.
  destruct (getpixel im x y) as [v|] eqn:Hv; simpl; [|lia].
  by eapply eight_bit_getpixel.
Qed.

Lemma place_in_circle_structure base_img content_img center rx ry threshold invert out :
  Bitmap2lcdmask.place_in_circle base_img content_img center rx ry threshold invert
    = Ok out ->
  exists scaled mask0,
    Image_new (2 * rx) (2 * ry) 0 = Ok mask0 /\
    out = paste base_img scaled (center.1 - rx, center.2 - ry)
            (Some (draw (in_ellipse (0, 0, 2 * rx, 2 * ry)) 255 mask0)) /\
    (is_Some threshold ->
     (forall im size o, eight_bit im -> Image_resize im size = Ok o -> eight_bit o) ->
     eight_bit scaled).
Proof.
  unfold Bitmap2lcdmask.place_in_circle. intros Hp.
  bind_ok Hp. bind_ok Hp. injection Hp as <-.
  eexists _, _. split_and!; eauto.
  intros [thr ->] Hresize. eapply Hresize; [|exact E].
  apply eight_bit_crop.
  assert (eight_bit (point (fun x0 => if x0 >=? thr then 255 else 0) (convert_L content_img))).
  { apply eight_bit_point. intros v. destruct (v >=? thr); lia. }
  destruct invert; auto using eight_bit_invert.
Qed.

Lemma place_in_circle_format base_img content_img center rx ry thr invert out :
  Bitmap2lcdmask.place_in_circle base_img content_img center rx ry (Some thr) invert
    = Ok out ->
  width out = width base_img /\ height out = height base_img /\
  (well_formed base_img -> well_formed out) /\
  ((forall im size o, eight_bit im -> Image_resize im size = Ok o -> eight_bit o) ->
   eight_bit base_img -> eight_bit out).
Proof.
  intros Hp.
  destruct (place_in_circle_structure _ _ _ _ _ _ _ _ Hp)
    as (scaled & mask0 & Hmask & -> & Hscaled).
  split_and!; try done.
  - apply well_formed_paste.
  - intros Hresize Hbase. apply eight_bit_paste_masked; eauto.
    intros u v a. eapply ellipse_mask_binary. exact Hmask.
Qed.

(** What a placement hands to the resampler: the centred square of the
    binarised source, inverted beforehand when [invert] is set. *)
Lemma place_in_circle_resamples base_img content_img center rx ry threshold invert :
  well_formed content_img ->
  let binarised :=
    match threshold with
    | Some thr => point (fun x => if x >=? thr then 255 else 0) content_img
    | None => content_img
    end in
  let min_side := Z.min (width content_img) (height content_img) in
  let left := (width content_img - min_side) `div` 2 in
  let top := (height content_img - min_side) `div` 2 in
  let square := crop binarised (left, top, left + min_side, top + min_side) in
  Bitmap2lcdmask.place_in_circle base_img content_img center rx ry threshold invert =
  scaled ← Image_resize (if invert then ImageOps_invert square else square)
             (2 * rx, 2 * ry);
  mask ← Image_new (2 * rx) (2 * ry) 0;
  Ok (paste base_img scaled (center.1 - rx, center.2 - ry)
        (Some (draw (in_ellipse (0, 0, 2 * rx, 2 * ry)) 255 mask))).
Proof.
  intros Hwf binarised min_side left top square.
  assert (well_formed binarised /\ width binarised = width content_img /\
          height binarised = height content_img) as (Hwfb & Hwb & Hhb).
  { unfold binarised. destruct threshold; [|done].
    split; [by apply well_formed_point | done]. }
  unfold Bitmap2lcdmask.place_in_circle, convert_L. fold binarised.
  destruct invert; [|by rewrite Hwb, Hhb].
  replace (width (ImageOps_invert binarised)) with (width content_img) by done.
  replace (height (ImageOps_invert binarised)) with (height content_img) by done.
  fold min_side left top.
  destruct Hwf as (Hw & Hh & _).
  assert (0 <= left /\ left + min_side <= width content_img) as [Hl0 Hl1].
  { unfold left, min_side.
    pose proof (Z.div_mod (width content_img - Z.min (width content_img) (height content_img)) 2).
    pose proof (Z.mod_pos_bound (width content_img - Z.min (width content_img) (height content_img)) 2).
    lia. }
  assert (0 <= top /\ top + min_side <= height content_img) as [Ht0 Ht1].
  { unfold top, min_side.
    pose proof (Z.div_mod (height content_img - Z.min (width content_img) (height content_img)) 2).
    pose proof (Z.mod_pos_bound (height content_img - Z.min (width content_img) (height content_img)) 2).
    lia. }
  rewrite crop_invert by (rewrite ?Hwb, ?Hhb; done). done.
Qed.

Lemma paste_circle_structure base img rx ry px_mm_x px_mm_y pos offset_mm invert out :
  Gds2lcdmask.paste_circle base img rx ry px_mm_x px_mm_y pos offset_mm invert = Ok out ->
  let img' := if invert then ImageOps_invert img else img in
  exists cx mask0,
    (if decide (pos = "left")
     then Ok (py_int (offset_mm * px_mm_x))
     else disp_mm_w ← py_div (inject_Z (width base)) px_mm_x;
          Ok (py_int ((disp_mm_w - offset_mm) * px_mm_x))) = Ok cx /\
    Image_new (width img') (height img') 0 = Ok mask0 /\
    out = paste base img' (cx - rx, height base `div` 2 - ry)
            (Some (draw (in_ellipse (0, 0, width img', height img')) 255 mask0)).
Proof.
  unfold Gds2lcdmask.paste_circle. intros Hp.
  bind_ok Hp. bind_ok Hp. injection Hp as <-.
  eexists _, _. split_and!; eauto.
Qed.

Lemma paste_circle_format base img rx ry px_mm_x px_mm_y pos offset_mm invert out :
  Gds2lcdmask.paste_circle base img rx ry px_mm_x px_mm_y pos offset_mm invert = Ok out ->
  width out = width base /\ height out = height base /\
  (well_formed base -> well_formed out) /\
  (eight_bit img -> eight_bit base -> eight_bit out).
Proof.
  intros Hp.
  destruct (paste_circle_structure _ _ _ _ _ _ _ _ _ _ Hp) as (cx & mask0 & Hcx & Hmask & ->).
  split_and!; try done.
  - apply well_formed_paste.
  - intros Himg Hbase. apply eight_bit_paste_masked; eauto.
    + destruct invert; auto using eight_bit_invert.
    + intros u v a. eapply ellipse_mask_binary. exact Hmask.
Qed.

Lemma eight_bit_draw_polygons gds_img polys cx cy sx sy rx ry :
  eight_bit gds_img ->
  eight_bit (Gds2lcdmask.draw_polygons gds_img polys cx cy sx sy rx ry).
Proof.
  unfold Gds2lcdmask.draw_polygons. revert gds_img.
  induction polys as [|poly polys IH]; intros gds_img Him; simpl; [done|].
  apply IH. apply eight_bit_draw; [lia | done].
Qed.


Lemma render_bitmap_mirror input_path threshold W_px H_px sw sh diam off :
  Bitmap2lcdmask.render_bitmap_to_photomask input_path threshold W_px H_px sw sh diam off =
  base ← Bitmap2lcdmask.render_bitmap_unmirrored input_path threshold W_px H_px sw sh diam off;
  Ok (ImageOps_mirror base).
Proof.
  unfold Bitmap2lcdmask.render_bitmap_to_photomask,
    Bitmap2lcdmask.render_bitmap_unmirrored.
  unfold mbind, result_bind. repeat (case_match; try done).
Qed.

Lemma render_bitmap_unmirrored_structure input_path threshold W_px H_px sw sh diam off canvas :
  Bitmap2lcdmask.render_bitmap_unmirrored input_path threshold W_px H_px sw sh diam off
    = Ok canvas ->
  exists px_per_mm_x px_per_mm_y base0 img base1,
    py_div (inject_Z W_px) sw = Ok px_per_mm_x /\
    py_div (inject_Z H_px) sh = Ok px_per_mm_y /\
    Image_new W_px H_px 0 = Ok base0 /\
    Image_open input_path = Ok img /\
    let rx := py_int (diam / 2 * px_per_mm_x) in
    let ry := py_int (diam / 2 * px_per_mm_y) in
    Bitmap2lcdmask.place_in_circle base0 img
      (Bitmap2lcdmask.left_center_x off px_per_mm_x, Bitmap2lcdmask.center_y H_px)
      rx ry (Some threshold) false = Ok base1 /\
    Bitmap2lcdmask.place_in_circle base1 img
      (Bitmap2lcdmask.right_center_x sw off px_per_mm_x, Bitmap2lcdmask.center_y H_px)
      rx ry (Some threshold) true = Ok canvas.
Proof.
  unfold Bitmap2lcdmask.render_bitmap_unmirrored. intros Hr.
  bind_ok Hr. bind_ok Hr. bind_ok Hr. bind_ok Hr. bind_ok Hr. bind_ok Hr.
  injection Hr as <-. eexists _, _, _, _, _. split_and!; eauto.
Qed.

Lemma render_gds_mirror uuid4_hex cell_name layer W_px H_px sw sh diam off cells :
  Gds2lcdmask.render_gds_to_photomask uuid4_hex cell_name layer W_px H_px sw sh diam off cells =
  (let '(cells', r) :=
     Gds2lcdmask.render_gds_unmirrored uuid4_hex cell_name layer W_px H_px sw sh diam off cells in
   (cells', base ← r; Ok (ImageOps_mirror base))).
Proof.
  unfold Gds2lcdmask.render_gds_to_photomask, Gds2lcdmask.render_gds_unmirrored.
  unfold mbind, stateful_bind, result_bind, mret, stateful_ret, get, modify, lift, raise.
  repeat (case_match; simplify_eq/=; try done).
Qed.


Lemma render_gds_unmirrored_Ok uuid4_hex cell_name layer W_px H_px sw sh diam off
    cells cells' canvas :
  Gds2lcdmask.render_gds_unmirrored uuid4_hex cell_name layer W_px H_px sw sh diam off cells
    = (cells', Ok canvas) ->
  exists original_cell px_per_mm_x px_per_mm_y bbox gds0 base0 base1,
    let temp_name := "__temp_flat__" +:+ uuid4_hex in
    let flat_cell := Cell_flatten (Cell_copy original_cell temp_name) in
    let polys := default [] (Cell_get_polygons flat_cell !! (layer, 0)) in
    let rx := py_int (diam / 2 * px_per_mm_x) in
    let ry := py_int (diam / 2 * px_per_mm_y) in
    let gds_img :=
      Gds2lcdmask.draw_polygons gds0 polys
        ((bbox.1.1 + bbox.2.1) / 2)%Q ((bbox.1.2 + bbox.2.2) / 2)%Q
        (px_per_mm_x / 1000)%Q (px_per_mm_y / 1000)%Q rx ry in
    cells !! cell_name = Some original_cell /\
    polys <> [] /\
    py_div (inject_Z W_px) sw = Ok px_per_mm_x /\
    py_div (inject_Z H_px) sh = Ok px_per_mm_y /\
    Cell_get_bounding_box flat_cell = Some bbox /\
    Image_new (2 * rx) (2 * ry) 0 = Ok gds0 /\
    Image_new W_px H_px 0 = Ok base0 /\
    Gds2lcdmask.paste_circle base0 gds_img rx ry px_per_mm_x px_per_mm_y
      "left" off false = Ok base1 /\
    Gds2lcdmask.paste_circle base1 gds_img rx ry px_per_mm_x px_per_mm_y
      "right" off true = Ok canvas /\
    cells' = Gds2lcdmask.discard temp_name
               (if copy_registers then <[temp_name := flat_cell]> cells else cells).
Proof.
  unfold Gds2lcdmask.render_gds_unmirrored.
  unfold mbind, stateful_bind, mret, stateful_ret, get, modify, lift, raise.
  intros Hr. repeat (case_match; simplify_eq/=).
  all: eexists _, _, _, _, _, _, _; split_and!; eauto.
Qed.

Lemma draw_polygons_size gds_img polys cx cy sx sy rx ry :
  width (Gds2lcdmask.draw_polygons gds_img polys cx cy sx sy rx ry) = width gds_img /\
  height (Gds2lcdmask.draw_polygons gds_img polys cx cy sx sy rx ry) = height gds_img.
Proof.
  unfold Gds2lcdmask.draw_polygons. revert gds_img.
  induction polys as [|p polys IH]; intros gds_img; simpl; [done|].
  destruct (IH (draw (in_polygon ((fun '(x, y) =>
              ((x - cx) * sx + inject_Z rx, (cy - y) * sy + inject_Z ry)%Q) <$> p))
              255 gds_img)) as [-> ->]. done.
Qed.

Lemma place_in_circle_succeeds base_img content_img center rx ry threshold invert :
  0 <= rx -> 0 <= ry ->
  (forall im, exists o, Image_resize im (2 * rx, 2 * ry) = Ok o) ->
  exists out,
    Bitmap2lcdmask.place_in_circle base_img content_img center rx ry threshold invert
      = Ok out.
Proof.
  intros Hrx Hry Hres. unfold Bitmap2lcdmask.place_in_circle.
  match goal with |- context [Image_resize ?im _] => destruct (Hres im) as [o ->] end.
  simpl. rewrite Image_new_succeeds by lia. simpl. eauto.
Qed.

(** The bitmap pipeline returns a canvas whenever the display is valid, the
    radius is not negative, the file opens and the resampler delivers the
    inset size. *)
Lemma render_bitmap_succeeds input_path threshold W_px H_px sw sh diam off img :
  0 <= W_px -> 0 <= H_px -> ~ (sw == 0)%Q -> ~ (sh == 0)%Q ->
  (0 <= diam / 2 * (inject_Z W_px / sw))%Q ->
  (0 <= diam / 2 * (inject_Z H_px / sh))%Q ->
  Image_open input_path = Ok img ->
  (forall im, exists o,
     Image_resize im (2 * py_int (diam / 2 * (inject_Z W_px / sw)),
                      2 * py_int (diam / 2 * (inject_Z H_px / sh))) = Ok o) ->
  exists out,
    Bitmap2lcdmask.render_bitmap_to_photomask input_path threshold W_px H_px sw sh diam off
      = Ok out.
Proof.
  intros HW HH Hsw Hsh Hrx Hry Hopen Hres.
  unfold Bitmap2lcdmask.render_bitmap_to_photomask.
  rewrite !py_div_nonzero by done. simpl.
  rewrite Image_new_succeeds by done. simpl. rewrite Hopen. simpl.
  apply py_int_nonneg in Hrx, Hry.
  edestruct place_in_circle_succeeds as [base1 ->]; [exact Hrx | exact Hry | exact Hres |].
  simpl.
  edestruct place_in_circle_succeeds as [base2 ->]; [exact Hrx | exact Hry | exact Hres |].
  simpl. eauto.
Qed.

Lemma paste_circle_left_succeeds base img rx ry px_mm_x px_mm_y offset_mm invert :
  0 <= width img -> 0 <= height img ->
  exists out,
    Gds2lcdmask.paste_circle base img rx ry px_mm_x px_mm_y "left" offset_mm invert = Ok out /\
    width out = width base /\ height out = height base.
Proof.
  intros Hw Hh. unfold Gds2lcdmask.paste_circle. rewrite decide_True by done. simpl.
  destruct invert; simpl; rewrite Image_new_succeeds by done; simpl; eauto.
Qed.

Lemma paste_circle_right_succeeds base img rx ry px_mm_x px_mm_y offset_mm invert :
  0 <= width img -> 0 <= height img -> ~ (px_mm_x == 0)%Q ->
  exists out,
    Gds2lcdmask.paste_circle base img rx ry px_mm_x px_mm_y "right" offset_mm invert = Ok out.
Proof.
  intros Hw Hh Hpx. unfold Gds2lcdmask.paste_circle. rewrite decide_False by done.
  rewrite py_div_nonzero by done. simpl.
  destruct invert; simpl; rewrite Image_new_succeeds by done; simpl; eauto.
Qed.

(** The GDS pipeline returns a canvas, and the library without the
    temporary cell, whenever the cell exists, the layer and the bounding box
    are not empty, the display is valid and the radius is not negative. *)
Lemma render_gds_succeeds uuid4_hex cell_name layer W_px H_px sw sh diam off
    cells original_cell bbox :
  let temp_name := "__temp_flat__" +:+ uuid4_hex in
  let flat_cell := Cell_flatten (Cell_copy original_cell temp_name) in
  cells !! cell_name = Some original_cell ->
  default [] (Cell_get_polygons flat_cell !! (layer, 0)) <> [] ->
  Cell_get_bounding_box flat_cell = Some bbox ->
  0 < W_px -> 0 <= H_px -> ~ (sw == 0)%Q -> ~ (sh == 0)%Q ->
  (0 <= diam / 2 * (inject_Z W_px / sw))%Q ->
  (0 <= diam / 2 * (inject_Z H_px / sh))%Q ->
  exists out,
    Gds2lcdmask.render_gds_to_photomask uuid4_hex cell_name layer W_px H_px sw sh diam off cells
    = (Gds2lcdmask.discard temp_name
         (if copy_registers then <[temp_name := flat_cell]> cells else cells),
       Ok out).
Proof.
  intros temp_name flat_cell Hcell Hpolys Hbbox HW HH Hsw Hsh Hrx Hry.
  unfold Gds2lcdmask.render_gds_to_photomask.
  unfold mbind at 1 2, stateful_bind, get, modify, lift, raise. simpl.
  rewrite Hcell. simpl. fold temp_name. fold flat_cell.
  rewrite decide_False by done.
  unfold mbind, stateful_bind, mret, stateful_ret, get, modify, lift, raise. simpl.
  rewrite !py_div_nonzero by done. rewrite Hbbox.
  apply py_int_nonneg in Hrx, Hry.
  rewrite Image_new_succeeds by lia.
  rewrite Image_new_succeeds by lia.
  set (gds_img := Gds2lcdmask.draw_polygons _ _ _ _ _ _ _ _).
  destruct (draw_polygons_size
              (mkImage (2 * py_int (diam / 2 * (inject_Z W_px / sw)))
                       (2 * py_int (diam / 2 * (inject_Z H_px / sh)))
                       (replicate (Z.to_nat (2 * py_int (diam / 2 * (inject_Z H_px / sh))))
                          (replicate (Z.to_nat (2 * py_int (diam / 2 * (inject_Z W_px / sw)))) 0)))
              (default [] (Cell_get_polygons flat_cell !! (layer, 0)))
              ((bbox.1.1 + bbox.2.1) / 2)%Q ((bbox.1.2 + bbox.2.2) / 2)%Q
              (inject_Z W_px / sw / 1000)%Q (inject_Z H_px / sh / 1000)%Q
              (py_int (diam / 2 * (inject_Z W_px / sw)))
              (py_int (diam / 2 * (inject_Z H_px / sh)))) as [Hgw Hgh].
  fold gds_img in Hgw, Hgh. simpl in Hgw, Hgh.
  edestruct (paste_circle_left_succeeds
               (mkImage W_px H_px (replicate (Z.to_nat H_px) (replicate (Z.to_nat W_px) 0)))
               gds_img) as (base1 & -> & Hw1 & Hh1); [lia | lia |].
  edestruct (paste_circle_right_succeeds base1 gds_img) as (base2 & ->); [lia | lia | |].
  { apply Qdiv_nonzero; [|done]. unfold Qeq. simpl. lia. }
  eauto.
Qed.

(** C7.  Dual-circle compositor: in the bitmap and in the GDS pipeline the
    final canvas is the horizontal mirror of the canvas the same computation
    yields without its last step, whatever the inputs (there is no option
    that switches the mirror off); the mirror reads column [x] from column
    [width - 1 - x]; and mirroring twice gives the image back. *)
Theorem final_mirror_is_unconditional :
  (forall input_path threshold W_px H_px sw sh diam off,
     Bitmap2lcdmask.render_bitmap_to_photomask input_path threshold W_px H_px sw sh diam off =
     base ← Bitmap2lcdmask.render_bitmap_unmirrored input_path threshold W_px H_px sw sh diam off;
     Ok (ImageOps_mirror base)) /\
  (forall uuid4_hex cell_name layer W_px H_px sw sh diam off cells,
     Gds2lcdmask.render_gds_to_photomask uuid4_hex cell_name layer W_px H_px sw sh diam off cells =
     (let '(cells', r) :=
        Gds2lcdmask.render_gds_unmirrored uuid4_hex cell_name layer W_px H_px sw sh diam off cells in
      (cells', base ← r; Ok (ImageOps_mirror base)))) /\
  (forall im x y,
     well_formed im -> 0 <= x < width im ->
     getpixel (ImageOps_mirror im) x y = getpixel im (width im - 1 - x) y) /\
  (forall img, ImageOps_mirror (ImageOps_mirror img) = img).
Proof.
  split_and!.
  - apply render_bitmap_mirror.
  - apply render_gds_mirror.
  - apply getpixel_mirror.
  - apply mirror_involutive.
Qed.

(** The canvas of the bitmap pipeline before the mirror: display-sized,
    well shaped and, under a resampler that keeps images 8-bit, 8-bit. *)
Lemma bitmap_unmirrored_format input_path threshold W_px H_px sw sh diam off canvas :
  Bitmap2lcdmask.render_bitmap_unmirrored input_path threshold W_px H_px sw sh diam off
    = Ok canvas ->
  width canvas = W_px /\ height canvas = H_px /\ well_formed canvas /\
  ((forall im size o, eight_bit im -> Image_resize im size = Ok o -> eight_bit o) ->
   eight_bit canvas).
Proof.
  intros Hr.
  destruct (render_bitmap_unmirrored_structure _ _ _ _ _ _ _ _ _ Hr)
    as (ppx & ppy & base0 & img & base1 & _ & _ & Hnew & _ & Hl & Hr').
  destruct (Image_new_well_formed _ _ _ _ Hnew) as (Hwf0 & Hw0 & Hh0).
  destruct (place_in_circle_format _ _ _ _ _ _ _ _ Hl) as (Hw1 & Hh1 & Hwf1 & H81).
  destruct (place_in_circle_format _ _ _ _ _ _ _ _ Hr') as (Hw2 & Hh2 & Hwf2 & H82).
  split_and!; [congruence | congruence | auto |].
  intros Hresize.
  apply H82; [done|]. apply H81; [done|]. by eapply eight_bit_new; [|exact Hnew].
Qed.

(** The same for the GDS pipeline. *)
Lemma gds_unmirrored_format uuid4_hex cell_name layer W_px H_px sw sh diam off
    cells cells' canvas :
  Gds2lcdmask.render_gds_unmirrored uuid4_hex cell_name layer W_px H_px sw sh diam off cells
    = (cells', Ok canvas) ->
  width canvas = W_px /\ height canvas = H_px /\ well_formed canvas /\ eight_bit canvas.
Proof.
  intros Hr.
  destruct (render_gds_unmirrored_Ok _ _ _ _ _ _ _ _ _ _ _ _ Hr)
    as (c & ppx & ppy & bbox & gds0 & base0 & base1 & _ & _ & _ & _ & _ &
        Hgds & Hnew & Hl & Hr' & _).
  destruct (Image_new_well_formed _ _ _ _ Hnew) as (Hwf0 & Hw0 & Hh0).
  destruct (paste_circle_format _ _ _ _ _ _ _ _ _ _ Hl) as (Hw1 & Hh1 & Hwf1 & H81).
  destruct (paste_circle_format _ _ _ _ _ _ _ _ _ _ Hr') as (Hw2 & Hh2 & Hwf2 & H82).
  assert (eight_bit gds0) as Hg0 by (by eapply eight_bit_new; [|exact Hgds]).
  split_and!; [congruence | congruence | auto |].
  apply H82; [by apply eight_bit_draw_polygons|].
  apply H81; [by apply eight_bit_draw_polygons|].
  by eapply eight_bit_new; [|exact Hnew].
Qed.

(** C9.  Every successful render of the bitmap, the GDS and the Gerber
    pipeline returns a single-channel image of exactly
    [pixel_width x pixel_height] pixels, whatever the source and whatever
    the circle or PCB values.  Its intensities are 8-bit: outright in the
    GDS pipeline, and in the other two as soon as the resampler returns
    8-bit images for 8-bit images (and the Gerber engine hands over an 8-bit
    raster). *)
Theorem render_output_format :
  (forall input_path threshold W_px H_px sw sh diam off out,
     Bitmap2lcdmask.render_bitmap_to_photomask input_path threshold W_px H_px sw sh diam off
       = Ok out ->
     width out = W_px /\ height out = H_px /\ well_formed out /\
     ((forall im size o, eight_bit im -> Image_resize im size = Ok o -> eight_bit o) ->
      eight_bit out)) /\
  (forall uuid4_hex cell_name layer W_px H_px sw sh diam off cells cells' out,
     Gds2lcdmask.render_gds_to_photomask uuid4_hex cell_name layer W_px H_px sw sh diam off cells
       = (cells', Ok out) ->
     width out = W_px /\ height out = H_px /\ well_formed out /\ eight_bit out) /\
  (forall g0 g img invert mirror min_x_mm max_y_mm w h out,
     Gerber2lcdmask.recompute_scalars g0 = Ok g ->
     Gerber2lcdmask.build_canvas g img invert mirror min_x_mm max_y_mm w h = Ok out ->
     width out = Gerber2lcdmask.DISPLAY_PIX_W g0 /\
     height out = Gerber2lcdmask.DISPLAY_PIX_H g0 /\
     well_formed out /\
     ((forall im size o, eight_bit im -> Image_resize im size = Ok o -> eight_bit o) ->
      eight_bit img -> eight_bit out)) /\
  (forall img invert mirror min_x_mm max_y_mm w_mm h_mm
          disp_pix_w disp_pix_h px_per_mm_x px_per_mm_y pcb_w_mm pcb_h_mm out,
     Toolkit._gerber_build_canvas img invert mirror min_x_mm max_y_mm w_mm h_mm
       disp_pix_w disp_pix_h px_per_mm_x px_per_mm_y pcb_w_mm pcb_h_mm = Ok out ->
     width out = disp_pix_w /\ height out = disp_pix_h /\
     well_formed out /\
     ((forall im size o, eight_bit im -> Image_resize im size = Ok o -> eight_bit o) ->
      eight_bit img -> eight_bit out)).
Proof.
  split_and!.
  - intros * Hr. rewrite render_bitmap_mirror in Hr. bind_ok Hr. injection Hr as <-.
    destruct (bitmap_unmirrored_format _ _ _ _ _ _ _ _ _ E)
      as (Hw & Hh & Hwf & H8).
    split_and!; auto using well_formed_mirror, eight_bit_mirror.
  - intros * Hr. rewrite render_gds_mirror in Hr.
    destruct (Gds2lcdmask.render_gds_unmirrored _ _ _ _ _ _ _ _ _ _)
      as [cells1 [pre|e]] eqn:Hpre; simplify_eq/=.
    destruct (gds_unmirrored_format _ _ _ _ _ _ _ _ _ _ _ _ Hpre)
      as (Hw & Hh & Hwf & H8).
    split_and!; auto using well_formed_mirror, eight_bit_mirror.
  - intros * Hg Hc.
    rewrite (build_canvas_toolkit _ _ _ _ _ _ _ _ _ Hg) in Hc.
    by eapply gerber_canvas_format.
  - intros * Hc. by eapply gerber_canvas_format.
Qed.


(** C8.  Threshold binarisation, the map of every pixel to 255 when its
    intensity is at least the threshold and to 0 otherwise, is idempotent
    for every threshold in 0..254 and every 8-bit image; hence a placement
    of an already binarised source is the placement of the source. *)
Theorem threshold_idempotent thr im :
  0 <= thr <= 254 ->
  eight_bit im ->
  point (fun x => if x >=? thr then 255 else 0)
    (point (fun x => if x >=? thr then 255 else 0) im)
  = point (fun x => if x >=? thr then 255 else 0) im /\
  forall base_img center rx ry invert,
    Bitmap2lcdmask.place_in_circle base_img
      (point (fun x => if x >=? thr then 255 else 0) im)
      center rx ry (Some thr) invert
    = Bitmap2lcdmask.place_in_circle base_img im center rx ry (Some thr) invert.
Proof.
  intros Hthr Him.
  assert (point (fun x => if x >=? thr then 255 else 0)
            (point (fun x => if x >=? thr then 255 else 0) im)
          = point (fun x => if x >=? thr then 255 else 0) im) as Hidem.
  { unfold point. simpl. f_equal.
    rewrite <- list_fmap_compose. apply Forall_fmap_ext.
    eapply Forall_impl; [exact Him|]. intros r Hr. simpl.
    rewrite <- list_fmap_compose. apply Forall_fmap_ext.
    eapply Forall_impl; [exact Hr|]. intros v Hv. simpl in Hv |- *.
    destruct (Z.geb_spec v thr) as [Hge|Hlt].
    - destruct (Z.geb_spec 255 thr); [done | lia].
    - destruct (Z.geb_spec 0 thr); [lia | done]. }
  split; [exact Hidem|].
  intros base_img center rx ry invert.
  unfold Bitmap2lcdmask.place_in_circle, convert_L. by rewrite Hidem.
Qed.

(** C6.  GDS adapter: when the flattened copy of the cell has no polygon
    under [(layer, 0)], the render raises
    [ValueError("No geometry on layer <layer>.")], whatever the display
    settings; no canvas is returned. *)
Theorem empty_layer_raises uuid4_hex cell_name layer W_px H_px sw sh diam off
    cells original_cell :
  cells !! cell_name = Some original_cell ->
  default []
    (Cell_get_polygons
       (Cell_flatten (Cell_copy original_cell ("__temp_flat__" +:+ uuid4_hex)))
     !! (layer, 0)) = [] ->
  snd (Gds2lcdmask.render_gds_to_photomask uuid4_hex cell_name layer
         W_px H_px sw sh diam off cells)
  = Raise (ValueError ("No geometry on layer " +:+ pretty layer +:+ ".")).
Proof.
  intros Hcell Hpolys. unfold Gds2lcdmask.render_gds_to_photomask.
  unfold mbind, stateful_bind, get, modify, raise. simpl.
  rewrite Hcell. simpl. rewrite Hpolys. by rewrite decide_True.
Qed.

(** The clean-up is in place on the exits the code handles: after a
    successful render, after the "no geometry" error and after the "empty
    cell" error the library has no cell of the temporary name. *)
Lemma discard_lookup temp_name (cells : gmap string Cell) :
  Gds2lcdmask.discard temp_name cells !! temp_name = None.
Proof.
  unfold Gds2lcdmask.discard. case_decide as Hin.
  - apply lookup_delete_eq.
  - by apply eq_None_not_Some.
Qed.

Lemma temp_cell_discarded_on_handled_exits uuid4_hex cell_name layer W_px H_px
    sw sh diam off cells cells' r :
  Gds2lcdmask.render_gds_to_photomask uuid4_hex cell_name layer
    W_px H_px sw sh diam off cells = (cells', r) ->
  (exists out, r = Ok out) \/
  r = Raise (ValueError ("No geometry on layer " +:+ pretty layer +:+ ".")) \/
  r = Raise (ValueError "Empty cell; no bounding box found.") ->
  cells' !! ("__temp_flat__" +:+ uuid4_hex) = None.
Proof.
  unfold Gds2lcdmask.render_gds_to_photomask.
  unfold mbind, stateful_bind, mret, stateful_ret, get, modify, lift, raise.
  intros Hr Hexit.
  repeat (case_match; simplify_eq/=); try apply discard_lookup.
  all: destruct Hexit as [[out ?] | [? | ?]]; simplify_eq.
  all: match goal with
       | E : py_div _ _ = Raise _ |- _ =>
           unfold py_div in E; case_match; simplify_eq
       | E : Image_new _ _ _ = Raise _ |- _ =>
           unfold Image_new in E; case_match; simplify_eq
       | E : Gds2lcdmask.paste_circle _ _ _ _ _ _ _ _ _ = Raise _ |- _ =>
           unfold Gds2lcdmask.paste_circle, Image_new, py_div in E;
           unfold mbind, result_bind in E;
           repeat (case_match; simplify_eq/=)
       end.
Qed.

(** A copy that is not entered into the library leaves a library without a
    cell of the temporary name as it is, on every path. *)
Lemma temp_cell_absent_without_registration uuid4_hex cell_name layer W_px H_px
    sw sh diam off cells cells' r :
  copy_registers = false ->
  cells !! ("__temp_flat__" +:+ uuid4_hex) = None ->
  Gds2lcdmask.render_gds_to_photomask uuid4_hex cell_name layer
    W_px H_px sw sh diam off cells = (cells', r) ->
  cells' = cells.
Proof.
  intros Hreg Hfresh.
  assert (Gds2lcdmask.discard ("__temp_flat__" +:+ uuid4_hex) cells = cells) as Hd.
  { unfold Gds2lcdmask.discard. rewrite decide_False; [done|].
    rewrite Hfresh. by intros [? ?]. }
  unfold Gds2lcdmask.render_gds_to_photomask.
  unfold mbind, stateful_bind, mret, stateful_ret, get, modify, lift, raise.
  rewrite Hreg. intros Hr.
  repeat (case_match; simplify_eq/=); congruence.
Qed.

(** Any exception in between is not handled: with a copy that is entered
    into the library, a non-empty layer and a display width of 0 mm, the
    division raises and the temporary cell stays. *)
Lemma temp_cell_left_on_zero_division uuid4_hex cell_name layer W_px H_px
    sw sh diam off cells original_cell :
  copy_registers = true ->
  cells !! cell_name = Some original_cell ->
  let temp_name := "__temp_flat__" +:+ uuid4_hex in
  let flat_cell := Cell_flatten (Cell_copy original_cell temp_name) in
  default [] (Cell_get_polygons flat_cell !! (layer, 0)) <> [] ->
  (sw == 0)%Q ->
  Gds2lcdmask.render_gds_to_photomask uuid4_hex cell_name layer
    W_px H_px sw sh diam off cells
  = (<[temp_name := flat_cell]> cells, Raise ZeroDivisionError).
Proof.
  intros Hreg Hcell temp_name flat_cell Hpolys Hsw.
  unfold Gds2lcdmask.render_gds_to_photomask.
  unfold mbind, stateful_bind, mret, stateful_ret, get, modify, lift, raise. simpl.
  rewrite Hcell. simpl. fold temp_name. fold flat_cell.
  rewrite decide_False by done. rewrite Hreg.
  unfold py_div. apply Qeq_bool_iff in Hsw. by rewrite Hsw.
Qed.

End DualCircle.

(** ** The compositors on concrete inputs *)

Lemma nearest_resize_eight_bit im size o :
  eight_bit im -> nearest_resize im size = Ok o -> eight_bit o.
Proof.
  intros Him. destruct size as [w h]. unfold nearest_resize.
  case_match; [done|]. intros [= <-]. unfold eight_bit. simpl.
  apply Forall_fmap, Forall_forall. intros y _. simpl.
  apply Forall_fmap, Forall_forall. intros x _. simpl.
  destruct (getpixel im _ _) as [v|] eqn:Hv; simpl; [|lia].
  by eapply eight_bit_getpixel.
Qed.







(** C9 on the sample file: a canvas of 8 x 4 pixels. *)
Lemma render_output_format_witness :
  exists out,
    @Bitmap2lcdmask.render_bitmap_to_photomask sample_pillow "in.png" 128 8 4 8 4 2 2
      = Ok out /\
    width out = 8 /\ height out = 4 /\ well_formed out /\ eight_bit out.
Proof.
  eexists. split; [vm_compute; reflexivity|].
  destruct (proj1 (@render_output_format sample_pillow flat_gdspy)
              "in.png" 128 8 4 8%Q 4%Q 2%Q 2%Q _ ltac:(vm_compute; reflexivity))
    as (Hw & Hh & Hwf & H8).
  split_and!; [exact Hw | exact Hh | exact Hwf |].
  apply H8. exact nearest_resize_eight_bit.
Defined.


(** C8 at threshold 128 on the sample image. *)
Lemma threshold_idempotent_witness :
  point (fun x => if x >=? 128 then 255 else 0)
    (point (fun x => if x >=? 128 then 255 else 0) (mkImage 2 2 [[10; 200]; [200; 200]]))
  = point (fun x => if x >=? 128 then 255 else 0) (mkImage 2 2 [[10; 200]; [200; 200]]).
Proof.
  apply (@threshold_idempotent sample_pillow 128 (mkImage 2 2 [[10; 200]; [200; 200]])).
  - lia.
  - unfold eight_bit. simpl. repeat constructor; lia.
Defined.

(** C6 on the sample library, whose cell has nothing on layer 2. *)
Lemma empty_layer_raises_witness :
  snd (@Gds2lcdmask.render_gds_to_photomask sample_pillow flat_gdspy
         "ab" "TOP" 2 8 4 8 4 2 2 sample_library)
  = Raise (ValueError "No geometry on layer 2.").
Proof.
  exact (@empty_layer_raises sample_pillow flat_gdspy
           "ab" "TOP" 2 8 4 8%Q 4%Q 2%Q 2%Q sample_library _
           ltac:(vm_compute; reflexivity) ltac:(vm_compute; reflexivity)).
Defined.

(** C7 on the sample raster. *)
Lemma final_mirror_is_unconditional_witness :
  getpixel (ImageOps_mirror sample_layer) 0 1 = getpixel sample_layer (2 - 1 - 0) 1.
Proof.
  apply (proj1 (proj2 (proj2 (@final_mirror_is_unconditional sample_pillow flat_gdspy)))
           sample_layer 0 1).
  - unfold well_formed. simpl. split_and!; [lia | lia | done | repeat constructor].
  - simpl. lia.
Defined.

(** * The code around the compositors: properties *)

(** ** Validated settings *)
Section Settings.

Lemma Qle_bool_false a b : Qle_bool a b = false <-> (b < a)%Q.
Proof.
  split.
  - intros Hf. apply Qnot_le_lt. intros Hle. apply Qle_bool_iff in Hle. congruence.
  - intros Hlt. destruct (Qle_bool a b) eqn:E; [|done].
    apply Qle_bool_iff in E. exfalso. by apply (Qlt_not_le _ _ Hlt).
Qed.

Lemma Qdiv_positive a b : (0 < a)%Q -> (0 < b)%Q -> (0 < a / b)%Q.
Proof.
  intros Ha Hb. unfold Qdiv. apply Qmult_lt_0_compat; [done|]. by apply Qinv_lt_0_compat.
Qed.

Lemma inject_Z_positive n : 0 < n -> (0 < inject_Z n)%Q.
Proof. intros Hn. change 0%Q with (inject_Z 0). by rewrite <- Zlt_Qlt. Qed.

Lemma Qpos_nonzero a : (0 < a)%Q -> ~ (a == 0)%Q.
Proof. intros Ha Hz. rewrite Hz in Ha. by apply (Qlt_irrefl 0). Qed.

Lemma py_ceil_pos q : (0 < q)%Q -> 1 <= py_ceil q.
Proof.
  intros Hq. unfold py_ceil.
  assert (0 < Qceiling q); [|lia].
  rewrite (Zlt_Qlt 0). change (inject_Z 0) with 0%Q.
  eapply Qlt_le_trans; [exact Hq|]. apply Qle_ceiling.
Qed.

(** The scalars that [recompute_scalars] derives from positive settings. *)
Lemma gerber_apply_accepts px_w px_h d_w d_h p_w p_h g :
  0 < px_w -> 0 < px_h -> (0 < d_w)%Q -> (0 < d_h)%Q -> (0 < p_w)%Q -> (0 < p_h)%Q ->
  GerberMainGUI.apply_user_values px_w px_h d_w d_h p_w p_h g =
    (Gerber2lcdmask.mkGlobals px_w px_h d_w d_h p_w p_h
       (inject_Z px_w / d_w) (inject_Z px_h / d_h)
       (py_ceil (p_w * (inject_Z px_w / d_w))) (py_ceil (p_h * (inject_Z px_h / d_h))),
     Ok true).
Proof.
  intros Hpw Hph Hdw Hdh Hpcw Hpch. unfold GerberMainGUI.apply_user_values.
  rewrite (proj2 (Z.leb_gt px_w 0)) by done.
  rewrite (proj2 (Z.leb_gt px_h 0)) by done.
  rewrite !(proj2 (Qle_bool_false _ 0)) by done. simpl.
  unfold Gerber2lcdmask.recompute_scalars. simpl.
  rewrite !py_div_nonzero by by apply Qpos_nonzero. reflexivity.
Qed.

Lemma gerber_apply_rejects px_w px_h d_w d_h p_w p_h g :
  ~ (0 < px_w /\ 0 < px_h /\ (0 < d_w)%Q /\ (0 < d_h)%Q /\ (0 < p_w)%Q /\ (0 < p_h)%Q) ->
  GerberMainGUI.apply_user_values px_w px_h d_w d_h p_w p_h g = (g, Ok false).
Proof.
  intros Hn. unfold GerberMainGUI.apply_user_values.
  destruct (px_w <=? 0) eqn:E1; [done|]. destruct (px_h <=? 0) eqn:E2; [done|].
  destruct (Qle_bool d_w 0) eqn:E3; [done|]. destruct (Qle_bool d_h 0) eqn:E4; [done|].
  destruct (Qle_bool p_w 0) eqn:E5; [done|]. destruct (Qle_bool p_h 0) eqn:E6; [done|].
  exfalso. apply Hn. apply Z.leb_gt in E1, E2.
  apply Qle_bool_false in E3, E4, E5, E6. done.
Qed.

Lemma gerber_apply_inv px_w px_h d_w d_h p_w p_h g g' :
  GerberMainGUI.apply_user_values px_w px_h d_w d_h p_w p_h g = (g', Ok true) ->
  (0 < px_w /\ 0 < px_h /\ (0 < d_w)%Q /\ (0 < d_h)%Q /\ (0 < p_w)%Q /\ (0 < p_h)%Q) /\
  g' = Gerber2lcdmask.mkGlobals px_w px_h d_w d_h p_w p_h
         (inject_Z px_w / d_w) (inject_Z px_h / d_h)
         (py_ceil (p_w * (inject_Z px_w / d_w))) (py_ceil (p_h * (inject_Z px_h / d_h))).
Proof.
  intros Ha.
  assert (0 < px_w /\ 0 < px_h /\ (0 < d_w)%Q /\ (0 < d_h)%Q /\ (0 < p_w)%Q /\ (0 < p_h)%Q)
    as Hpos.
  { unfold GerberMainGUI.apply_user_values in Ha.
    destruct (px_w <=? 0) eqn:E1; [done|]. destruct (px_h <=? 0) eqn:E2; [done|].
    destruct (Qle_bool d_w 0) eqn:E3; [done|]. destruct (Qle_bool d_h 0) eqn:E4; [done|].
    destruct (Qle_bool p_w 0) eqn:E5; [done|]. destruct (Qle_bool p_h 0) eqn:E6; [done|].
    apply Z.leb_gt in E1, E2. apply Qle_bool_false in E3, E4, E5, E6. done. }
  split; [done|]. destruct Hpos as (?&?&?&?&?&?).
  rewrite gerber_apply_accepts in Ha by done. congruence.
Qed.

End Settings.

(** ** The Gerber tool: settings, worker, and the worker of the toolkit *)

Section GerberGui.
Context `{Pillow} `{Pygerber}.

(** X1.  [MainGUI.apply_user_values] of the Gerber tool never raises.  It
    returns [True] exactly when all six values are positive; when it returns
    [False] the module-level variables are what they were, and when it
    returns [True] the six settings are the six values. *)
Theorem gerber_settings_are_validated px_w px_h d_w d_h p_w p_h g :
  exists b g',
    GerberMainGUI.apply_user_values px_w px_h d_w d_h p_w p_h g = (g', Ok b) /\
    (b = true <->
     0 < px_w /\ 0 < px_h /\ (0 < d_w)%Q /\ (0 < d_h)%Q /\ (0 < p_w)%Q /\ (0 < p_h)%Q) /\
    (b = false -> g' = g) /\
    (b = true ->
     Gerber2lcdmask.DISPLAY_PIX_W g' = px_w /\ Gerber2lcdmask.DISPLAY_PIX_H g' = px_h /\
     Gerber2lcdmask.DISPLAY_W_MM g' = d_w /\ Gerber2lcdmask.DISPLAY_H_MM g' = d_h /\
     Gerber2lcdmask.PCB_W_MM g' = p_w /\ Gerber2lcdmask.PCB_H_MM g' = p_h).
Proof.
  destruct (GerberMainGUI.apply_user_values px_w px_h d_w d_h p_w p_h g) as [g' r] eqn:Ha.
  assert (Ha' := Ha). unfold GerberMainGUI.apply_user_values in Ha'.
  destruct (_ || _) eqn:Hv in Ha'.
  - injection Ha' as <- <-. exists false, g.
    split; [done|]. split; [|done]. split; [done|].
    intros (?&?&?&?&?&?).
    rewrite gerber_apply_accepts in Ha by done. discriminate.
  - clear Ha'. repeat (apply orb_false_elim in Hv as [Hv ?]).
    apply Z.leb_gt in Hv. 
    repeat match goal with
           | E : (_ <=? 0) = false |- _ => apply Z.leb_gt in E
           | E : Qle_bool _ 0 = false |- _ => apply Qle_bool_false in E
           end.
    rewrite gerber_apply_accepts in Ha by done. injection Ha as <- <-.
    eexists true, _. split; [done|]. split; [done|]. done.
Qed.


(** X3.  With accepted settings [PrepareWorker.run] of the Gerber tool
    emits [error] only with an exception of the Gerber engine or of the
    resampler: neither the divisions nor the two [Image.new] can fail.
    Otherwise it emits [finished] with the engine's four numbers and a canvas
    of the display's pixel size. *)
Theorem gerber_prepare_fails_only_outside px_w px_h d_w d_h p_w p_h g g'
    gerber_path invert mirror :
  GerberMainGUI.apply_user_values px_w px_h d_w d_h p_w p_h g = (g', Ok true) ->
  let dpmm := py_int (Gerber2lcdmask.PX_PER_MM_X g' * 2) in
  match GerberMainGUI.PrepareWorker_run g' gerber_path invert mirror with
  | finished (canvas_img, info) =>
      (exists img0, GerberFile_render gerber_path dpmm = Ok (img0, info)) /\
      width canvas_img = px_w /\ height canvas_img = px_h
  | error e =>
      GerberFile_render gerber_path dpmm = Raise e \/
      exists img0 info size,
        GerberFile_render gerber_path dpmm = Ok (img0, info) /\
        Image_resize img0 size = Raise e
  end.
Proof.
  intros [(Hpw & Hph & Hdw & Hdh & Hcw & Hch) ->]%gerber_apply_inv. simpl.
  unfold GerberMainGUI.PrepareWorker_run, GerberMainGUI.render_bw_with_origin. simpl.
  destruct (GerberFile_render _ _) as [[img0 info]|e] eqn:Hr; simpl; [|by left].
  assert (0 < inject_Z px_w / d_w)%Q as Hx by (apply Qdiv_positive; auto using inject_Z_positive).
  assert (0 < inject_Z px_h / d_h)%Q as Hy by (apply Qdiv_positive; auto using inject_Z_positive).
  unfold Gerber2lcdmask.build_canvas. simpl.
  destruct (Image_resize img0 _) as [layer|e] eqn:Hres; simpl.
  - rewrite (Image_new_succeeds (py_ceil _) (py_ceil _)); simpl.
    + rewrite (Image_new_succeeds px_w px_h) by lia. simpl. split_and!; eauto.
    + pose proof (py_ceil_pos (p_w * (inject_Z px_w / d_w))
                    ltac:(by apply Qmult_lt_0_compat)). lia.
    + pose proof (py_ceil_pos (p_h * (inject_Z px_h / d_h))
                    ltac:(by apply Qmult_lt_0_compat)). lia.
  - right. eauto 10.
Qed.

(** X4.  [GerberWorker.run] of the toolkit, which takes the settings as
    arguments and computes the scale factors itself, emits what
    [PrepareWorker.run] of the standalone tool emits on the module-level
    variables after [recompute_scalars], less the four numbers of the
    layer. *)
Theorem toolkit_gerber_worker_agrees g0 g path invert mirror :
  Gerber2lcdmask.recompute_scalars g0 = Ok g ->
  ToolkitTabs.GerberWorker_run path invert mirror
    (Gerber2lcdmask.DISPLAY_PIX_W g0) (Gerber2lcdmask.DISPLAY_PIX_H g0)
    (Gerber2lcdmask.DISPLAY_W_MM g0) (Gerber2lcdmask.DISPLAY_H_MM g0)
    (Gerber2lcdmask.PCB_W_MM g0) (Gerber2lcdmask.PCB_H_MM g0) =
  match GerberMainGUI.PrepareWorker_run g path invert mirror with
  | finished (canvas_img, _) => finished canvas_img
  | error e => error e
  end.
Proof.
  intros Hg. unfold ToolkitTabs.GerberWorker_run, GerberMainGUI.PrepareWorker_run,
    GerberMainGUI.render_bw_with_origin.
  assert (Hbc := build_canvas_toolkit g0 g).
  specialize (Hbc) with (1 := Hg).
  unfold Gerber2lcdmask.recompute_scalars in Hg.
  bind_ok Hg. bind_ok Hg. injection Hg as <-. simpl in *.
  destruct (GerberFile_render _ _) as [[img0 info]|e]; simpl; [|done].
  rewrite Hbc. by destruct (Toolkit._gerber_build_canvas _ _ _ _ _ _ _ _ _ _ _ _ _).
Qed.

End GerberGui.

(** ** The bitmap and the GDS tool: settings, workers, library *)

Section DualGui.
Context `{Pillow} `{Gdspy}.

Lemma dual_apply_accepts px_w px_h d_w d_h g :
  0 < px_w -> 0 < px_h -> (0 < d_w)%Q -> (0 < d_h)%Q ->
  DualCircleMainGUI.apply_user_values px_w px_h d_w d_h g =
    (DualCircleMainGUI.mkGlobals px_w px_h d_w d_h
       (inject_Z px_w / d_w) (inject_Z px_h / d_h), Ok true).
Proof.
  intros Hpw Hph Hdw Hdh. unfold DualCircleMainGUI.apply_user_values.
  rewrite (proj2 (Z.leb_gt px_w 0)) by done.
  rewrite (proj2 (Z.leb_gt px_h 0)) by done.
  rewrite !(proj2 (Qle_bool_false _ 0)) by done. simpl.
  unfold DualCircleMainGUI.recompute_scalars. simpl.
  rewrite !py_div_nonzero by by apply Qpos_nonzero. reflexivity.
Qed.

Lemma dual_apply_inv px_w px_h d_w d_h g g' :
  DualCircleMainGUI.apply_user_values px_w px_h d_w d_h g = (g', Ok true) ->
  (0 < px_w /\ 0 < px_h /\ (0 < d_w)%Q /\ (0 < d_h)%Q) /\
  g' = DualCircleMainGUI.mkGlobals px_w px_h d_w d_h
         (inject_Z px_w / d_w) (inject_Z px_h / d_h).
Proof.
  intros Ha.
  assert (0 < px_w /\ 0 < px_h /\ (0 < d_w)%Q /\ (0 < d_h)%Q) as Hpos.
  { unfold DualCircleMainGUI.apply_user_values in Ha.
    destruct (px_w <=? 0) eqn:E1; [done|]. destruct (px_h <=? 0) eqn:E2; [done|].
    destruct (Qle_bool d_w 0) eqn:E3; [done|]. destruct (Qle_bool d_h 0) eqn:E4; [done|].
    apply Z.leb_gt in E1, E2. apply Qle_bool_false in E3, E4. done. }
  split; [done|]. destruct Hpos as (?&?&?&?).
  rewrite dual_apply_accepts in Ha by done. congruence.
Qed.

(** X5.  [MainGUI.apply_user_values] of the bitmap and of the GDS tool
    never raises.  It returns [True] exactly when the four values are
    positive; when it returns [False] the module-level variables are what
    they were, and when it returns [True] they hold the four values and the
    two quotients pixels / millimetres, both positive. *)
Theorem dual_circle_settings_are_validated px_w px_h d_w d_h g :
  exists b g',
    DualCircleMainGUI.apply_user_values px_w px_h d_w d_h g = (g', Ok b) /\
    (b = true <-> 0 < px_w /\ 0 < px_h /\ (0 < d_w)%Q /\ (0 < d_h)%Q) /\
    (b = false -> g' = g) /\
    (b = true ->
     g' = DualCircleMainGUI.mkGlobals px_w px_h d_w d_h
            (inject_Z px_w / d_w) (inject_Z px_h / d_h) /\
     (0 < DualCircleMainGUI.PX_PER_MM_X g')%Q /\
     (0 < DualCircleMainGUI.PX_PER_MM_Y g')%Q).
Proof.
  destruct (DualCircleMainGUI.apply_user_values px_w px_h d_w d_h g) as [g' r] eqn:Ha.
  assert (Ha' := Ha). unfold DualCircleMainGUI.apply_user_values in Ha'.
  destruct (_ || _) eqn:Hv in Ha'.
  - injection Ha' as <- <-. exists false, g.
    split; [done|]. split; [|done]. split; [done|].
    intros (?&?&?&?).
    rewrite dual_apply_accepts in Ha by done. discriminate.
  - clear Ha'. repeat (apply orb_false_elim in Hv as [Hv ?]).
    apply Z.leb_gt in Hv.
    repeat match goal with
           | E : (_ <=? 0) = false |- _ => apply Z.leb_gt in E
           | E : Qle_bool _ 0 = false |- _ => apply Qle_bool_false in E
           end.
    rewrite dual_apply_accepts in Ha by done. injection Ha as <- <-.
    eexists true, _. split; [done|]. split; [done|]. split; [done|].
    intros _. simpl. split_and!; [done| |]; apply Qdiv_positive; auto using inject_Z_positive.
Qed.

Lemma place_in_circle_Raise base_img content_img center rx ry threshold invert e :
  0 <= rx -> 0 <= ry ->
  Bitmap2lcdmask.place_in_circle base_img content_img center rx ry threshold invert
    = Raise e ->
  exists im, Image_resize im (2 * rx, 2 * ry) = Raise e.
Proof.
  intros Hrx Hry. unfold Bitmap2lcdmask.place_in_circle.
  destruct (Image_resize _ _) as [scaled|e'] eqn:Hres; simpl.
  - rewrite Image_new_succeeds by lia. simpl. discriminate.
  - intros [= <-]. eauto.
Qed.

(** The bitmap render on a display with positive dimensions and a circle
    diameter that is not negative: a canvas of the display size, or the
    exception of the decoder or of the resampler. *)
Lemma render_bitmap_on_valid_display input_path threshold W_px H_px sw sh diam off :
  0 < W_px -> 0 < H_px -> (0 < sw)%Q -> (0 < sh)%Q -> (0 <= diam)%Q ->
  match Bitmap2lcdmask.render_bitmap_to_photomask input_path threshold
          W_px H_px sw sh diam off with
  | Ok img => width img = W_px /\ height img = H_px
  | Raise e =>
      Image_open input_path = Raise e \/ exists im size, Image_resize im size = Raise e
  end.
Proof.
  intros HW HH Hsw Hsh Hd.
  unfold Bitmap2lcdmask.render_bitmap_to_photomask.
  rewrite !py_div_nonzero by by apply Qpos_nonzero. simpl.
  rewrite Image_new_succeeds by lia. simpl.
  destruct (Image_open input_path) as [img|e]; simpl; [|by left].
  assert (forall n d, 0 < n -> (0 < d)%Q -> 0 <= py_int (diam / 2 * (inject_Z n / d))) as Hr.
  { intros n d Hn Hd'. apply py_int_nonneg. apply Qmult_le_0_compat.
    - apply Qle_shift_div_l; [done|]. by rewrite Qmult_0_l.
    - apply Qlt_le_weak, Qdiv_positive; auto using inject_Z_positive. }
  destruct (Bitmap2lcdmask.place_in_circle _ img _ _ _ _ false) as [base1|e] eqn:H1; simpl.
  - destruct (Bitmap2lcdmask.place_in_circle base1 img _ _ _ _ true) as [base2|e] eqn:H2; simpl.
    + apply place_in_circle_format in H1 as (Hw1 & Hh1 & _).
      apply place_in_circle_format in H2 as (Hw2 & Hh2 & _).
      simpl in *. split; congruence.
    + right. apply place_in_circle_Raise in H2 as [im Him]; eauto.
  - right. apply place_in_circle_Raise in H1 as [im Him]; eauto.
Qed.

(** X6.  With accepted settings and the built-in circle of 100 mm at
    60 mm, [PrepareWorker.run] of the bitmap tool emits [error] only with the
    exception of opening the file or of the resampler, and otherwise
    [finished] with a canvas of the display's pixel size. *)
Theorem bitmap_prepare_fails_only_outside px_w px_h d_w d_h g g' input_path threshold :
  DualCircleMainGUI.apply_user_values px_w px_h d_w d_h g = (g', Ok true) ->
  match DualCircleMainGUI.Bitmap_PrepareWorker_run input_path threshold
          (DualCircleMainGUI.DISPLAY_PIX_W g') (DualCircleMainGUI.DISPLAY_PIX_H g')
          (DualCircleMainGUI.DISPLAY_W_MM g') (DualCircleMainGUI.DISPLAY_H_MM g')
          DualCircleMainGUI.CIRCLE_DIAM_MM DualCircleMainGUI.CIRCLE_OFFSET_MM with
  | finished img => width img = px_w /\ height img = px_h
  | error e =>
      Image_open input_path = Raise e \/ exists im size, Image_resize im size = Raise e
  end.
Proof.
  intros [(Hpw & Hph & Hdw & Hdh) ->]%dual_apply_inv. simpl.
  unfold DualCircleMainGUI.Bitmap_PrepareWorker_run.
  pose proof (render_bitmap_on_valid_display input_path threshold px_w px_h d_w d_h
                DualCircleMainGUI.CIRCLE_DIAM_MM DualCircleMainGUI.CIRCLE_OFFSET_MM
                Hpw Hph Hdw Hdh ltac:(done)) as Hr.
  by destruct (Bitmap2lcdmask.render_bitmap_to_photomask _ _ _ _ _ _ _ _).
Qed.

Lemma discard_fresh temp_name (cells : gmap string Cell) c (b : bool) :
  cells !! temp_name = None ->
  Gds2lcdmask.discard temp_name (if b then <[temp_name := c]> cells else cells) = cells.
Proof.
  intros Hfresh. unfold Gds2lcdmask.discard. destruct b.
  - rewrite decide_True by (rewrite lookup_insert_eq; eauto).
    by apply delete_insert_id.
  - rewrite decide_False; [done|]. rewrite Hfresh. by intros [? ?].
Qed.

Lemma render_gds_size uuid4_hex cell_name layer W_px H_px sw sh diam off cells cells' out :
  Gds2lcdmask.render_gds_to_photomask uuid4_hex cell_name layer W_px H_px sw sh diam off cells
    = (cells', Ok out) ->
  width out = W_px /\ height out = H_px.
Proof.
  rewrite render_gds_mirror.
  destruct (Gds2lcdmask.render_gds_unmirrored _ _ _ _ _ _ _ _ _ _) as [c [base|e]] eqn:Hu;
    simpl; [|discriminate].
  intros [= <- <-]. apply gds_unmirrored_format in Hu as (Hw & Hh & _). done.
Qed.

(** The GDS render on a display with positive dimensions, a circle diameter
    that is not negative and a library without a cell of the temporary
    name. *)
Lemma render_gds_on_valid_display uuid4_hex cell_name layer W_px H_px sw sh diam off cells :
  0 < W_px -> 0 < H_px -> (0 < sw)%Q -> (0 < sh)%Q -> (0 <= diam)%Q ->
  cells !! ("__temp_flat__" +:+ uuid4_hex) = None ->
  exists r,
    Gds2lcdmask.render_gds_to_photomask uuid4_hex cell_name layer
      W_px H_px sw sh diam off cells = (cells, r) /\
    match r with
    | Ok img => width img = W_px /\ height img = H_px
    | Raise e =>
        e = ValueError ("Cell '" +:+ cell_name +:+ "' not found in GDS.") \/
        e = ValueError ("No geometry on layer " +:+ pretty layer +:+ ".") \/
        e = ValueError "Empty cell; no bounding box found."
    end.
Proof.
  intros HW HH Hsw Hsh Hd Hfresh.
  destruct (cells !! cell_name) as [original_cell|] eqn:Hcell.
  2:{ eexists. split.
      - unfold Gds2lcdmask.render_gds_to_photomask.
        unfold mbind at 1, stateful_bind, get, raise. simpl. rewrite Hcell. reflexivity.
      - simpl. by left. }
  set (temp_name := "__temp_flat__" +:+ uuid4_hex) in *.
  set (flat_cell := Cell_flatten (Cell_copy original_cell temp_name)).
  destruct (decide (default [] (Cell_get_polygons flat_cell !! (layer, 0)) = []))
    as [Hempty|Hpolys].
  { eexists. split.
    - unfold Gds2lcdmask.render_gds_to_photomask.
      unfold mbind, stateful_bind, get, modify, raise. simpl. rewrite Hcell. simpl.
      fold temp_name. fold flat_cell. rewrite decide_True by done.
      rewrite discard_fresh by done. reflexivity.
    - simpl. right. by left. }
  destruct (Cell_get_bounding_box flat_cell) as [bbox|] eqn:Hbbox.
  2:{ eexists. split.
      - unfold Gds2lcdmask.render_gds_to_photomask.
        unfold mbind, stateful_bind, get, modify, raise, lift. simpl. rewrite Hcell. simpl.
        fold temp_name. fold flat_cell. rewrite decide_False by done.
        rewrite !py_div_nonzero by by apply Qpos_nonzero.
        rewrite Hbbox. rewrite discard_fresh by done. reflexivity.
      - simpl. right. by right. }
  assert (forall n d, 0 < n -> (0 < d)%Q -> (0 <= diam / 2 * (inject_Z n / d))%Q) as Hr.
  { intros n d Hn Hd'. apply Qmult_le_0_compat.
    - apply Qle_shift_div_l; [done|]. by rewrite Qmult_0_l.
    - apply Qlt_le_weak, Qdiv_positive; auto using inject_Z_positive. }
  destruct (render_gds_succeeds uuid4_hex cell_name layer W_px H_px sw sh diam off
              cells original_cell bbox Hcell Hpolys Hbbox HW ltac:(lia)
              (Qpos_nonzero _ Hsw) (Qpos_nonzero _ Hsh) (Hr _ _ HW Hsw) (Hr _ _ HH Hsh))
    as [out Hout].
  fold temp_name in Hout. fold flat_cell in Hout.
  rewrite discard_fresh in Hout by done.
  exists (Ok out). split; [done|]. by eapply render_gds_size.
Qed.

(** X7.  With accepted settings and a library that has no cell of the
    temporary name, [PrepareWorker.run] of the GDS tool leaves the library
    as it found it and emits either [finished] with a canvas of the
    display's pixel size or [error] with one of the three [ValueError]s that
    the render raises itself. *)
Theorem gds_prepare_restores_library px_w px_h d_w d_h g g' uuid4_hex cell_name layer cells :
  DualCircleMainGUI.apply_user_values px_w px_h d_w d_h g = (g', Ok true) ->
  cells !! ("__temp_flat__" +:+ uuid4_hex) = None ->
  exists s,
    DualCircleMainGUI.Gds_PrepareWorker_run uuid4_hex cell_name layer
      (DualCircleMainGUI.DISPLAY_PIX_W g') (DualCircleMainGUI.DISPLAY_PIX_H g')
      (DualCircleMainGUI.DISPLAY_W_MM g') (DualCircleMainGUI.DISPLAY_H_MM g')
      DualCircleMainGUI.CIRCLE_DIAM_MM DualCircleMainGUI.CIRCLE_OFFSET_MM cells
    = (cells, s) /\
    match s with
    | finished img => width img = px_w /\ height img = px_h
    | error e =>
        e = ValueError ("Cell '" +:+ cell_name +:+ "' not found in GDS.") \/
        e = ValueError ("No geometry on layer " +:+ pretty layer +:+ ".") \/
        e = ValueError "Empty cell; no bounding box found."
    end.
Proof.
  intros [(Hpw & Hph & Hdw & Hdh) ->]%dual_apply_inv Hfresh. simpl.
  unfold DualCircleMainGUI.Gds_PrepareWorker_run.
  destruct (render_gds_on_valid_display uuid4_hex cell_name layer px_w px_h d_w d_h
              DualCircleMainGUI.CIRCLE_DIAM_MM DualCircleMainGUI.CIRCLE_OFFSET_MM cells
              Hpw Hph Hdw Hdh ltac:(done) Hfresh) as (r & -> & Hr).
  destruct r as [img|e]; eauto.
Qed.

(** X8.  [render_gds_to_photomask] on a library without a cell of the
    temporary name: whenever it returns, or raises one of its own three
    [ValueError]s, the library is the one it was called with, whether or not
    [cell.copy] had entered the copy. *)
Theorem handled_exits_restore_library uuid4_hex cell_name layer W_px H_px sw sh diam off
    cells cells' r :
  cells !! ("__temp_flat__" +:+ uuid4_hex) = None ->
  Gds2lcdmask.render_gds_to_photomask uuid4_hex cell_name layer
    W_px H_px sw sh diam off cells = (cells', r) ->
  (exists out, r = Ok out) \/
  r = Raise (ValueError ("Cell '" +:+ cell_name +:+ "' not found in GDS.")) \/
  r = Raise (ValueError ("No geometry on layer " +:+ pretty layer +:+ ".")) \/
  r = Raise (ValueError "Empty cell; no bounding box found.") ->
  cells' = cells.
Proof.
  intros Hfresh. unfold Gds2lcdmask.render_gds_to_photomask.
  unfold mbind, stateful_bind, mret, stateful_ret, get, modify, lift, raise.
  intros Hr Hexit.
  repeat (case_match; simplify_eq/=);
    try (match goal with
         | |- Gds2lcdmask.discard ?t (<[?t := ?c]> ?m) = ?m =>
             apply (discard_fresh t m c true); done
         | c : Cell |- Gds2lcdmask.discard ?t ?m = ?m =>
             apply (discard_fresh t m c false); done
         end); try done.
  all: destruct Hexit as [[out ?] | [? | [? | ?]]]; simplify_eq.
  all: match goal with
       | E : py_div _ _ = Raise _ |- _ =>
           unfold py_div in E; case_match; simplify_eq
       | E : Image_new _ _ _ = Raise _ |- _ =>
           unfold Image_new in E; case_match; simplify_eq
       | E : Gds2lcdmask.paste_circle _ _ _ _ _ _ _ _ _ = Raise _ |- _ =>
           unfold Gds2lcdmask.paste_circle, Image_new, py_div in E;
           unfold mbind, result_bind in E;
           repeat (case_match; simplify_eq/=)
       end.
Qed.

End DualGui.

(** ** The renders of the toolkit against those of the standalone tools *)

Section Twins.
Context `{Pillow} `{Gdspy}.

(** X9.  The bitmap render of the toolkit is the bitmap render of the
    standalone tool, on all arguments; and [BitmapWorker.run], which leaves
    the circle at its defaults, emits what the standalone worker emits for
    the standalone constants. *)
Theorem toolkit_bitmap_render_agrees input_path threshold disp_pix_w disp_pix_h
    disp_mm_w disp_mm_h circle_diam_mm circle_offset_mm :
  ToolkitTabs._bmp_render_to_photomask input_path threshold disp_pix_w disp_pix_h
    disp_mm_w disp_mm_h circle_diam_mm circle_offset_mm =
  Bitmap2lcdmask.render_bitmap_to_photomask input_path threshold disp_pix_w disp_pix_h
    disp_mm_w disp_mm_h circle_diam_mm circle_offset_mm /\
  ToolkitTabs.BitmapWorker_run input_path threshold disp_pix_w disp_pix_h
    disp_mm_w disp_mm_h =
  DualCircleMainGUI.Bitmap_PrepareWorker_run input_path threshold disp_pix_w disp_pix_h
    disp_mm_w disp_mm_h DualCircleMainGUI.CIRCLE_DIAM_MM DualCircleMainGUI.CIRCLE_OFFSET_MM.
Proof. split; reflexivity. Qed.

(** X10.  The GDS render of the toolkit leaves the library as the render
    of the standalone tool does and gives the same result, but for one
    exception text: "Empty cell; no bounding box." where the standalone tool
    says "Empty cell; no bounding box found.".  [GDSWorker.run] emits that
    result for the default circle. *)
Theorem toolkit_gds_render_agrees uuid4_hex cell_name layer disp_pix_w disp_pix_h
    disp_mm_w disp_mm_h cells :
  (forall circle_diam_mm circle_offset_mm,
     ToolkitTabs._gds_render_to_photomask uuid4_hex cell_name layer disp_pix_w disp_pix_h
       disp_mm_w disp_mm_h circle_diam_mm circle_offset_mm cells =
     (let '(cells', r) :=
        Gds2lcdmask.render_gds_to_photomask uuid4_hex cell_name layer disp_pix_w disp_pix_h
          disp_mm_w disp_mm_h circle_diam_mm circle_offset_mm cells in
      (cells', ToolkitTabs.toolkit_wording r))) /\
  ToolkitTabs.GDSWorker_run uuid4_hex cell_name layer disp_pix_w disp_pix_h
    disp_mm_w disp_mm_h cells =
  (let '(cells', r) :=
     Gds2lcdmask.render_gds_to_photomask uuid4_hex cell_name layer disp_pix_w disp_pix_h
       disp_mm_w disp_mm_h 100 60 cells in
   (cells', match ToolkitTabs.toolkit_wording r with
            | Ok img => finished img
            | Raise e => error e
            end)).
Proof.
  assert (forall circle_diam_mm circle_offset_mm,
     ToolkitTabs._gds_render_to_photomask uuid4_hex cell_name layer disp_pix_w disp_pix_h
       disp_mm_w disp_mm_h circle_diam_mm circle_offset_mm cells =
     (let '(cells', r) :=
        Gds2lcdmask.render_gds_to_photomask uuid4_hex cell_name layer disp_pix_w disp_pix_h
          disp_mm_w disp_mm_h circle_diam_mm circle_offset_mm cells in
      (cells', ToolkitTabs.toolkit_wording r))) as Hrender.
  { intros circle_diam_mm circle_offset_mm.
    unfold ToolkitTabs._gds_render_to_photomask, Gds2lcdmask.render_gds_to_photomask,
      ToolkitTabs.toolkit_wording.
    change ToolkitTabs._gds_paste_circle with Gds2lcdmask.paste_circle.
    unfold mbind, stateful_bind, mret, stateful_ret, get, modify, lift, raise.
    repeat (case_match; simplify_eq/=; try done).
    all: try match goal with
         | E : py_div _ _ = Raise _ |- _ =>
             unfold py_div in E; case_match; simplify_eq; done
         | E : Image_new _ _ _ = Raise _ |- _ =>
             unfold Image_new in E; case_match; simplify_eq; done
         | E : Gds2lcdmask.paste_circle _ _ _ _ _ _ _ _ _ = Raise _ |- _ =>
             unfold Gds2lcdmask.paste_circle, Image_new, py_div in E;
             unfold mbind, result_bind in E;
             repeat (case_match; simplify_eq/=); done
         end. }
  split; [exact Hrender|].
  unfold ToolkitTabs.GDSWorker_run. rewrite Hrender.
  unfold ToolkitTabs.CIRCLE_DIAM_MM_GDS, ToolkitTabs.CIRCLE_OFFSET_MM_GDS.
  destruct (Gds2lcdmask.render_gds_to_photomask _ _ _ _ _ _ _ _ _ _) as [cells' r].
  by destruct (ToolkitTabs.toolkit_wording r).
Qed.

End Twins.

(** ** The display model of the toolkit and the zoom of the preview *)

(** X11.  [DisplayModel.set_values] stores the four values as given,
    without validating them, and emits [changed] unless all four compare
    equal to the stored ones; setting the same values again emits
    nothing. *)
Theorem set_values_emits_iff_changed m pix_w' pix_h' mm_w' mm_h' :
  let '(m', changed) := ToolkitTabs.set_values m pix_w' pix_h' mm_w' mm_h' in
  m' = ToolkitTabs.mkDisplayModel pix_w' pix_h' mm_w' mm_h' /\
  (changed = false <->
   pix_w' = ToolkitTabs.pix_w m /\ pix_h' = ToolkitTabs.pix_h m /\
   (mm_w' == ToolkitTabs.mm_w m)%Q /\ (mm_h' == ToolkitTabs.mm_h m)%Q) /\
  (ToolkitTabs.set_values m' pix_w' pix_h' mm_w' mm_h').2 = false.
Proof.
  unfold ToolkitTabs.set_values, ToolkitTabs.Qne_bool. simpl.
  split; [done|]. split.
  - rewrite !orb_false_iff, !negb_false_iff, !Z.eqb_eq, !Qeq_bool_iff. tauto.
  - rewrite !Z.eqb_refl. rewrite !(proj2 (Qeq_bool_iff _ _) (Qeq_refl _)). done.
Qed.

Section Wheel.


End Wheel.

(** ** The layer box *)

Section Combo.
Context `{Pillow} `{Gdspy}.

Lemma elem_of_layer_set cells ly :
  ly ∈ DualCircleMainGUI.layer_set cells <->
  exists name cell dt polys,
    cells !! name = Some cell /\ Cell_get_polygons cell !! (ly, dt) = Some polys.
Proof.
  unfold DualCircleMainGUI.layer_set. rewrite elem_of_union_list. split.
  - intros (X & HX & Hly).
    apply list_elem_of_fmap in HX as (cell & -> & Hcell).
    apply list_elem_of_fmap in Hcell as ([name cell'] & -> & Hin).
    apply elem_of_map_to_list in Hin.
    apply elem_of_map in Hly as ([ly' dt] & -> & Hdom).
    apply elem_of_dom in Hdom as [polys Hp].
    exists name, cell', dt, polys. done.
  - intros (name & cell & dt & polys & Hcell & Hp).
    exists (set_map fst (dom (Cell_get_polygons cell))). split.
    + apply list_elem_of_fmap. exists cell. split; [done|].
      apply list_elem_of_fmap. exists (name, cell). split; [done|].
      by apply elem_of_map_to_list.
    + apply elem_of_map. exists (ly, dt). split; [done|].
      apply elem_of_dom. eauto.
Qed.

(** X13.  The layer box that [_load_gds_metadata] fills is strictly
    ascending, so without duplicates, and holds exactly the layer numbers
    under which some cell of the library has polygons, under whatever
    datatype. *)
Theorem layer_box_is_sorted_and_complete cells :
  StronglySorted Z.lt (DualCircleMainGUI.combo_layer_items cells) /\
  forall ly,
    ly ∈ DualCircleMainGUI.combo_layer_items cells <->
    exists name cell dt polys,
      cells !! name = Some cell /\ Cell_get_polygons cell !! (ly, dt) = Some polys.
Proof.
  unfold DualCircleMainGUI.combo_layer_items. split.
  - assert (StronglySorted Z.le (merge_sort Z.le (elements (DualCircleMainGUI.layer_set cells))))
      as Hs by (apply StronglySorted_merge_sort; apply _).
    assert (NoDup (merge_sort Z.le (elements (DualCircleMainGUI.layer_set cells)))) as Hn.
    { rewrite merge_sort_Permutation. apply NoDup_elements. }
    revert Hs Hn. generalize (merge_sort Z.le (elements (DualCircleMainGUI.layer_set cells))).
    induction l as [|x l IH]; intros Hs Hn; [constructor|].
    apply StronglySorted_inv in Hs as [Hs Hx]. apply NoDup_cons in Hn as [Hx' Hn].
    constructor; [by apply IH|].
    apply Forall_forall. intros y Hy.
    rewrite Forall_forall in Hx. specialize (Hx y Hy).
    assert (x <> y) by (intros ->; done). lia.
  - intros ly. rewrite merge_sort_Permutation, elem_of_elements.
    apply elem_of_layer_set.
Qed.

(** X14.  The layer box lists layers by number, the render reads
    datatype 0 only: a layer that a cell has under some datatype, and that
    its flattened copy does not have under datatype 0, is offered in the box
    and makes the render of that cell raise "No geometry on layer". *)
Theorem listed_layer_without_datatype_0 uuid4_hex cell_name layer W_px H_px sw sh diam off
    cells original_cell dt polys :
  cells !! cell_name = Some original_cell ->
  Cell_get_polygons original_cell !! (layer, dt) = Some polys ->
  Cell_get_polygons (Cell_flatten (Cell_copy original_cell ("__temp_flat__" +:+ uuid4_hex)))
    !! (layer, 0) = None ->
  layer ∈ DualCircleMainGUI.combo_layer_items cells /\
  (Gds2lcdmask.render_gds_to_photomask uuid4_hex cell_name layer W_px H_px sw sh diam off
     cells).2 = Raise (ValueError ("No geometry on layer " +:+ pretty layer +:+ ".")).
Proof.
  intros Hcell Hp Hflat. split.
  - unfold DualCircleMainGUI.combo_layer_items.
    rewrite merge_sort_Permutation, elem_of_elements. apply elem_of_layer_set. eauto 10.
  - unfold Gds2lcdmask.render_gds_to_photomask.
    unfold mbind, stateful_bind, get, modify, raise. simpl. rewrite Hcell. simpl.
    rewrite Hflat. reflexivity.
Qed.

End Combo.

(** ** The two scripts with the display built in *)

Section LegacyBitmap.
Context `{Pillow} `{PngFile}.

Lemma legacy_place_in_circle base_img content_img center rx ry threshold invert :
  Bitmap2anycubic.place_in_circle base_img content_img center rx ry threshold invert =
  Bitmap2lcdmask.place_in_circle base_img content_img center rx ry threshold invert.
Proof.
  unfold Bitmap2anycubic.place_in_circle, Bitmap2lcdmask.place_in_circle.
  cbv zeta.
  match goal with
  | |- context [crop ?im (_, _, (width ?im + ?m) `div` 2, _)] =>
      replace ((width im + m) `div` 2) with ((width im - m) `div` 2 + m);
      [replace ((height im + m) `div` 2) with ((height im - m) `div` 2 + m)|]
  end.
  - reflexivity.
  - rewrite <- Z.div_add by lia. f_equal. lia.
  - rewrite <- Z.div_add by lia. f_equal. lia.
Qed.

(** X15.  [erzeuge_bild] of bitmap2anycubic_png.py saves what
    [render_bitmap_to_photomask] of the standalone tool returns for a
    display of 13312 x 5120 pixels on 223.642 x 126.48 mm and a circle of
    100 mm at 60 mm, and fails where that render fails; the crop box written
    with [(w + m) // 2] is the one written with [left + min_side].  So
    [verarbeiten] confirms with its "Bild gespeichert" box exactly when that
    render returned a canvas and [save] wrote it. *)
Theorem legacy_bitmap_saves_standalone_render input_path output_path threshold :
  Bitmap2anycubic.erzeuge_bild input_path output_path threshold =
  (img ← Bitmap2lcdmask.render_bitmap_to_photomask input_path threshold
           13312 5120 223.642 126.48 100 60;
   Image_save img output_path) /\
  (Bitmap2anycubic.verarbeiten (Some input_path) threshold (Some output_path) =
     [information "Fertig"
        ("Bild gespeichert unter:" +:+ String (Ascii.ascii_of_nat 10) output_path)] <->
   exists img,
     Bitmap2lcdmask.render_bitmap_to_photomask input_path threshold
       13312 5120 223.642 126.48 100 60 = Ok img /\
     Image_save img output_path = Ok tt).
Proof.
  assert (Bitmap2anycubic.erzeuge_bild input_path output_path threshold =
    (img ← Bitmap2lcdmask.render_bitmap_to_photomask input_path threshold
             13312 5120 223.642 126.48 100 60;
     Image_save img output_path)) as Hsame.
  { unfold Bitmap2anycubic.erzeuge_bild, Bitmap2lcdmask.render_bitmap_to_photomask.
    cbv zeta.
    unfold Bitmap2lcdmask.left_center_x, Bitmap2lcdmask.right_center_x,
      Bitmap2lcdmask.center_y.
    unfold mbind, result_bind.
    destruct (py_div (inject_Z 13312) 223.642) as [ppx|]; [|reflexivity].
    destruct (py_div (inject_Z 5120) 126.48) as [ppy|]; [|reflexivity].
    destruct (Image_new 13312 5120 0) as [base|]; [|reflexivity].
    destruct (Image_open input_path) as [img|]; [|reflexivity].
    rewrite legacy_place_in_circle.
    destruct (Bitmap2lcdmask.place_in_circle base img _ _ _ _ false) as [base1|];
      [|reflexivity].
    rewrite legacy_place_in_circle.
    destruct (Bitmap2lcdmask.place_in_circle base1 img _ _ _ _ true) as [base2|];
      reflexivity. }
  split; [exact Hsame|].
  unfold Bitmap2anycubic.verarbeiten. rewrite Hsame.
  destruct (Bitmap2lcdmask.render_bitmap_to_photomask _ _ _ _ _ _ _ _) as [img|e]; simpl.
  - destruct (Image_save img output_path) as [[]|e] eqn:Hsave; split.
    + intros _. eauto.
    + done.
    + discriminate.
    + intros (img' & [= <-] & Hs). congruence.
  - split; [discriminate|]. intros (img' & ? & _). discriminate.
Qed.

End LegacyBitmap.

Section LegacyGds.
Context `{Pillow} `{Gdspy} `{PngFile}.

Lemma legacy_paste_circle base img rx ry px_mm_x px_mm_y pos invert :
  Gds2anycubic.paste_circle base img rx ry px_mm_x px_mm_y pos invert =
  Gds2lcdmask.paste_circle base img rx ry px_mm_x px_mm_y pos 60 invert.
Proof. reflexivity. Qed.

(** The built-in display never makes the composition fail. *)
Lemma compose_total polys bbox :
  exists base,
    Gds2anycubic.compose polys bbox = Ok base /\ width base = 13312 /\ height base = 5120.
Proof.
  unfold Gds2anycubic.compose. cbv zeta.
  assert (~ (223.642 == 0)%Q) as Hsw by done.
  assert (~ (126.48 == 0)%Q) as Hsh by done.
  rewrite !py_div_nonzero by done.
  unfold mbind, result_bind. cbv beta iota.
  set (ppx := (inject_Z 13312 / 223.642)%Q). set (ppy := (inject_Z 5120 / 126.48)%Q).
  assert (0 <= py_int (50 * ppx)) as Hrx by (apply py_int_nonneg; done).
  assert (0 <= py_int (50 * ppy)) as Hry by (apply py_int_nonneg; done).
  rewrite (Image_new_succeeds (2 * _) (2 * _)) by lia.
  rewrite (Image_new_succeeds 13312 5120) by lia.
  set (gds0 := mkImage (2 * py_int (50 * ppx)) _ _).
  set (base0 := mkImage 13312 5120 _).
  set (gds_img := Gds2lcdmask.draw_polygons gds0 _ _ _ _ _ _ _).
  destruct (draw_polygons_size gds0 polys
              ((bbox.1.1 + bbox.2.1) / 2)%Q ((bbox.1.2 + bbox.2.2) / 2)%Q
              (ppx / 1000)%Q (ppy / 1000)%Q (py_int (50 * ppx)) (py_int (50 * ppy)))
    as [Hgw Hgh].
  fold gds_img in Hgw, Hgh. unfold gds0 in Hgw, Hgh. cbn [width height] in Hgw, Hgh.
  rewrite !legacy_paste_circle.
  destruct (paste_circle_left_succeeds base0 gds_img (py_int (50 * ppx)) (py_int (50 * ppy))
              ppx ppy 60 false) as (base1 & -> & Hw1 & Hh1); [lia | lia |].
  destruct (paste_circle_right_succeeds base1 gds_img (py_int (50 * ppx)) (py_int (50 * ppy))
              ppx ppy 60 true) as (base2 & Hb2); [lia | lia | done |].
  cbv beta iota. rewrite legacy_paste_circle, Hb2. exists (ImageOps_mirror base2). split; [done|].
  apply paste_circle_format in Hb2 as (Hw2 & Hh2 & _).
  cbn [ImageOps_mirror width height]. rewrite Hw2, Hh2, Hw1, Hh1. done.
Qed.




Lemma legacy_compose_is_render uuid4_hex cell_name layer cells original_cell bbox :
  cells !! cell_name = Some original_cell ->
  let temp_name := "__temp_flat__" +:+ uuid4_hex in
  let flat_cell := Cell_flatten (Cell_copy original_cell "__temp_flat__") in
  let polys := default [] (Cell_get_polygons flat_cell !! (layer, 0)) in
  Cell_get_polygons (Cell_flatten (Cell_copy original_cell temp_name))
    = Cell_get_polygons flat_cell ->
  Cell_get_bounding_box (Cell_flatten (Cell_copy original_cell temp_name))
    = Cell_get_bounding_box flat_cell ->
  polys <> [] ->
  Cell_get_bounding_box flat_cell = Some bbox ->
  (Gds2lcdmask.render_gds_to_photomask uuid4_hex cell_name layer
     13312 5120 223.642 126.48 100 60 cells).2
  = Gds2anycubic.compose polys bbox.
Proof.
  intros Hcell temp_name flat_cell polys Hsame_p Hsame_b Hpolys Hbbox.
  unfold Gds2lcdmask.render_gds_to_photomask, Gds2anycubic.compose.
  unfold mbind at 1, stateful_bind, get. rewrite Hcell. cbv zeta.
  fold temp_name. rewrite Hsame_p, Hsame_b, Hbbox. fold flat_cell. fold polys.
  rewrite decide_False by done.
  unfold mbind, stateful_bind, result_bind, mret, stateful_ret, modify, lift.
  cbv beta iota.
  destruct (py_div (inject_Z 13312) 223.642) as [ppx|]; [|reflexivity].
  destruct (py_div (inject_Z 5120) 126.48) as [ppy|]; [|reflexivity].
  rewrite (py_int_comp (100 / 2 * ppx) (50 * ppx)) by (by apply Qmult_comp).
  rewrite (py_int_comp (100 / 2 * ppy) (50 * ppy)) by (by apply Qmult_comp).
  destruct (Image_new (2 * _) (2 * _) 0) as [gds0|]; [|reflexivity].
  destruct (Image_new 13312 5120 0) as [base0|]; [|reflexivity].
  rewrite legacy_paste_circle.
  destruct (Gds2lcdmask.paste_circle base0 _ _ _ _ _ "left" _ false) as [base1|];
    [|reflexivity].
  rewrite legacy_paste_circle.
  destruct (Gds2lcdmask.paste_circle base1 _ _ _ _ _ "right" _ true) as [base2|];
    reflexivity.
Qed.


End LegacyGds.

(** ** The two options of the PCB-canvas compositor, pixel by pixel *)

Section GerberPixels.
Context `{Pillow}.



End GerberPixels.

(** ** The black surround of the dual-circle canvas *)

Section Background.
Context `{Pillow} `{Gdspy}.

(** A paste under an ellipse mask leaves a pixel as it is outside the
    mask's rectangle and wherever the ellipse is not drawn. *)
Lemma paste_masked_outside base im box inside w h m0 X Y :
  Image_new w h 0 = Ok m0 ->
  ~ (0 <= X - box.1 < w /\ 0 <= Y - box.2 < h) \/ inside (X - box.1) (Y - box.2) = false ->
  getpixel (paste base im box (Some (draw inside 255 m0))) X Y = getpixel base X Y.
Proof.
  intros Hnew Hout. rewrite getpixel_paste.
  destruct (getpixel base X Y) as [d|]; simpl; [|done]. f_equal.
  unfold paste_pixel. destruct (getpixel im _ _) as [s|]; [|done].
  rewrite getpixel_draw, (getpixel_new _ _ _ _ _ _ Hnew).
  case_decide as Hin; simpl; [|done].
  destruct Hout as [Hout | ->]; [done|]. done.
Qed.



End Background.

(** ** The properties above on the sample inputs *)


(** X3 on the sample display and the sample Gerber file. *)
Lemma gerber_prepare_fails_only_outside_witness :
  exists g' canvas_img info,
    GerberMainGUI.apply_user_values 8 6 8 6 4 2 sample_settings = (g', Ok true) /\
    @GerberMainGUI.PrepareWorker_run sample_pillow sample_pygerber g' "top.gbr" false true
      = finished (canvas_img, info) /\
    width canvas_img = 8 /\ height canvas_img = 6.
Proof.
  eexists _, _, _. split; [vm_compute; reflexivity|]. split; [vm_compute; reflexivity|].
  pose proof (@gerber_prepare_fails_only_outside sample_pillow sample_pygerber
                8 6 8%Q 6%Q 4%Q 2%Q sample_settings _ "top.gbr" false true
                ltac:(vm_compute; reflexivity)) as Hrun.
  vm_compute in Hrun. destruct Hrun as (_ & Hw & Hh). split; [exact Hw | exact Hh].
Defined.

(** X4 on the sample display and the sample Gerber file. *)
Lemma toolkit_gerber_worker_agrees_witness :
  exists g,
    Gerber2lcdmask.recompute_scalars sample_settings = Ok g /\
    @ToolkitTabs.GerberWorker_run sample_pillow sample_pygerber "top.gbr" false true
      8 6 8 6 4 2 =
    match @GerberMainGUI.PrepareWorker_run sample_pillow sample_pygerber g
            "top.gbr" false true with
    | finished (canvas_img, _) => finished canvas_img
    | error e => error e
    end.
Proof.
  eexists. split; [vm_compute; reflexivity|].
  exact (@toolkit_gerber_worker_agrees sample_pillow sample_pygerber sample_settings _
           "top.gbr" false true ltac:(vm_compute; reflexivity)).
Defined.

(** X6 on the sample file. *)
Lemma bitmap_prepare_fails_only_outside_witness :
  exists g' img,
    DualCircleMainGUI.apply_user_values 8 4 8 4 sample_display = (g', Ok true) /\
    @DualCircleMainGUI.Bitmap_PrepareWorker_run sample_pillow "in.png" 128 8 4 8 4 100 60
      = finished img /\
    width img = 8 /\ height img = 4.
Proof.
  eexists _, _. split; [vm_compute; reflexivity|]. split; [vm_compute; reflexivity|].
  pose proof (@bitmap_prepare_fails_only_outside sample_pillow
                8 4 8%Q 4%Q sample_display _ "in.png" 128
                ltac:(vm_compute; reflexivity)) as Hrun.
  vm_compute in Hrun. exact Hrun.
Defined.

(** X7 on the sample library. *)
Lemma gds_prepare_restores_library_witness :
  exists g',
    DualCircleMainGUI.apply_user_values 8 4 8 4 sample_display = (g', Ok true) /\
    (@DualCircleMainGUI.Gds_PrepareWorker_run sample_pillow flat_gdspy
       "ab" "TOP" 1 8 4 8 4 100 60 sample_library).1 = sample_library.
Proof.
  eexists. split; [vm_compute; reflexivity|].
  destruct (@gds_prepare_restores_library sample_pillow flat_gdspy
              8 4 8%Q 4%Q sample_display _ "ab" "TOP" 1 sample_library
              ltac:(vm_compute; reflexivity) ltac:(vm_compute; reflexivity))
    as (s & Hs & _).
  exact (f_equal fst Hs).
Defined.

(** X8 on the sample library and a layer without geometry. *)
Lemma handled_exits_restore_library_witness :
  (@Gds2lcdmask.render_gds_to_photomask sample_pillow flat_gdspy
     "ab" "TOP" 2 8 4 8 4 2 2 sample_library).1 = sample_library.
Proof.
  eapply (@handled_exits_restore_library sample_pillow flat_gdspy
            "ab" "TOP" 2 8 4 8%Q 4%Q 2%Q 2%Q sample_library _
            (Raise (ValueError "No geometry on layer 2."))).
  - vm_compute. reflexivity.
  - vm_compute. reflexivity.
  - right. right. left. reflexivity.
Defined.


(** X14 on the second sample library: layer 7 has a polygon of datatype 5
    only. *)
Lemma listed_layer_without_datatype_0_witness :
  7 ∈ @DualCircleMainGUI.combo_layer_items flat_gdspy sample_library2 /\
  (@Gds2lcdmask.render_gds_to_photomask sample_pillow flat_gdspy
     "ab" "AUX" 7 8 4 8 4 2 2 sample_library2).2
  = Raise (ValueError "No geometry on layer 7.").
Proof.
  exact (@listed_layer_without_datatype_0 sample_pillow flat_gdspy
           "ab" "AUX" 7 8 4 8%Q 4%Q 2%Q 2%Q sample_library2 _ 5 _
           ltac:(vm_compute; reflexivity) ltac:(vm_compute; reflexivity)
           ltac:(vm_compute; reflexivity)).
Defined.







